(** * mcp-amadeus: the authenticated API client and the operations built on it

    A shallow embedding of [mcp_amadeus/client.py] (token manager and request
    executor) and of the endpoint operations of [mcp_amadeus/operations] that
    the properties below talk about, followed by those properties.

    Conventions of the embedding.
    - Python objects that travel through the code (decoded JSON documents,
      request parameters, shaped results) are values of type [value].  JSON
      numbers are integers here; decimal amounts reach the code as strings,
      the way the Amadeus payloads carry them.
    - [datetime] values are integers counting microseconds, the resolution of
      [datetime.now()]; the calendar range of [datetime] is not modelled.
    - The remote service is a script of replies consumed one per HTTP call;
      every HTTP call and every [response.json()] call is appended to a log,
      so that "no network call" and "no parse attempt" are statements about
      that log.
    - A Python function that may raise returns a [result]; methods of the
      client run in the state-and-exception monad [M], which threads the
      client object ([self]) and the world.
    - Python's [float] is an interface, [PyFloat]; [str(e)] of an exception
      is a parameter of the one operation that uses it. *)

From Stdlib Require Import ZArith QArith List String Ascii Bool Lia.
From Stdlib Require Import Sorting.Sorted Sorting.Permutation.
Import ListNotations.

Local Set Warnings "-register-all".
Local Open Scope string_scope.
Local Open Scope list_scope.
Local Open Scope Z_scope.

(** ** Python values *)

Inductive value : Type :=
| VNone
| VBool (b : bool)
| VInt (z : Z)
| VStr (s : string)
| VList (items : list value)
| VDict (entries : list (string * value)).

(** [bool(v)]: the truth test applied by [if v], [v and ...], [not v]. *)
Definition py_truthy (v : value) : bool :=
  match v with
  | VNone => false
  | VBool b => b
  | VInt z => negb (z =? 0)
  | VStr s => negb (String.eqb s "")
  | VList items => match items with [] => false | _ => true end
  | VDict entries => match entries with [] => false | _ => true end
  end.

(** Key lookup in a dict, first binding for the key. *)
Fixpoint assoc (k : string) (entries : list (string * value)) : option value :=
  match entries with
  | [] => None
  | (k', v) :: rest => if String.eqb k k' then Some v else assoc k rest
  end.

(** ** HTTP responses and exceptions *)

(** The body of a response: either text that is not a JSON document, or a
    JSON document, given by the object [response.json()] decodes it to. *)
Inductive body : Type :=
| NotJson (text : string)
| Json (doc : value).

Record response : Type := mkResponse {
  status_code : Z;
  content : body
}.

Inductive exn : Type :=
| HTTPStatusError (r : response)   (* httpx: raise_for_status *)
| TransportError                   (* httpx: connection or timeout failure *)
| JSONDecodeError                  (* response.json() on a non-JSON body *)
| KeyError (k : string)
| TypeError
| AttributeError
| ValueError.

Inductive result (A : Type) : Type :=
| Ok (a : A)
| Raise (e : exn).
Arguments Ok {A} a.
Arguments Raise {A} e.

Definition rbind {A B} (r : result A) (k : A -> result B) : result B :=
  match r with
  | Ok a => k a
  | Raise e => Raise e
  end.

Declare Scope res_scope.
Delimit Scope res_scope with res.
Notation "x <~ r ;; k" := (rbind r (fun x => k))
  (at level 61, r at next level, right associativity) : res_scope.

(** [d.get(k, default)]: only dicts have the method. *)
Definition py_get (d : value) (k : string) (default : value) : result value :=
  match d with
  | VDict entries =>
      Ok (match assoc k entries with Some v => v | None => default end)
  | _ => Raise AttributeError
  end.

(** [d[k]] with a string key. *)
Definition py_subscript (d : value) (k : string) : result value :=
  match d with
  | VDict entries =>
      match assoc k entries with Some v => Ok v | None => Raise (KeyError k) end
  | _ => Raise TypeError
  end.

(** [v - n] for an integer [n]: defined on ints (and bools, which are ints). *)
Definition py_sub_int (v : value) (n : Z) : result Z :=
  match v with
  | VInt z => Ok (z - n)
  | VBool b => Ok ((if b then 1 else 0) - n)
  | _ => Raise TypeError
  end.

(** ** The world: clock, remote service, log *)

Inductive reply : Type :=
| Responds (elapsed : Z) (r : response)
| Unreachable (elapsed : Z).

(** What goes over the wire. *)
Inductive event : Type :=
| TokenPost (url client_id client_secret : string)
| Request (method url : string) (params json_data : option value)
          (bearer : value) (timeout : Z)
| Delete (url : string) (bearer : value) (timeout : Z)
| JsonDecode (b : body).

Definition is_network_call (ev : event) : bool :=
  match ev with
  | JsonDecode _ => false
  | _ => true
  end.

Record world : Type := mkWorld {
  now : Z;                 (* what datetime.now() reads, in microseconds *)
  backend : list reply;    (* replies to the HTTP calls still to come *)
  log : list event         (* oldest first *)
}.

(** [timedelta(seconds=s)] in microseconds. *)
Definition timedelta_seconds (s : Z) : Z := s * 1000000.

(** ** The client object and its monad *)

Record AmadeusClient : Type := mkClient {
  client_id : string;
  client_secret : string;
  base_url : string;
  _access_token : value;         (* None until the first refresh *)
  _token_expiry : option Z       (* None until the first refresh *)
}.

Definition M (A : Type) : Type :=
  AmadeusClient -> world -> result A * AmadeusClient * world.

Definition ret {A} (a : A) : M A := fun self w => (Ok a, self, w).

Definition raise {A} (e : exn) : M A := fun self w => (Raise e, self, w).

Definition bind {A B} (m : M A) (k : A -> M B) : M B :=
  fun self w =>
    match m self w with
    | (Ok a, self', w') => k a self' w'
    | (Raise e, self', w') => (Raise e, self', w')
    end.

Definition lift {A} (r : result A) : M A := fun self w => (r, self, w).

(** [try: x = m  except Exception as e: ...]: the outcome of [m], raised
    exception included, handed to the code that follows. *)
Definition attempt {A} (m : M A) : M (result A) :=
  fun self w =>
    match m self w with
    | (r, self', w') => (Ok r, self', w')
    end.

Declare Scope m_scope.
Delimit Scope m_scope with M.
Notation "x <- m ;; k" := (bind m (fun x => k))
  (at level 61, m at next level, right associativity) : m_scope.
Notation "m ;;; k" := (bind m (fun _ => k))
  (at level 61, right associativity) : m_scope.
Local Open Scope m_scope.

Definition get_self : M AmadeusClient := fun self w => (Ok self, self, w).

Definition datetime_now : M Z := fun self w => (Ok (now w), self, w).

Definition set_access_token (tok : value) : M unit :=
  fun self w =>
    (Ok tt,
     mkClient (client_id self) (client_secret self) (base_url self)
              tok (_token_expiry self),
     w).

Definition set_token_expiry (t : Z) : M unit :=
  fun self w =>
    (Ok tt,
     mkClient (client_id self) (client_secret self) (base_url self)
              (_access_token self) (Some t),
     w).

Definition emit (ev : event) (w : world) : world :=
  mkWorld (now w) (backend w) (log w ++ [ev]).

(** One HTTP exchange: the call is logged, the next scripted reply is
    consumed and the clock moves by the time the exchange took.  A script
    that has run out stands for a service that no longer answers. *)
Definition http_call (ev : event) : M response :=
  fun self w =>
    match backend w with
    | Responds dt r :: rest =>
        (Ok r, self, mkWorld (now w + dt) rest (log w ++ [ev]))
    | Unreachable dt :: rest =>
        (Raise TransportError, self, mkWorld (now w + dt) rest (log w ++ [ev]))
    | [] => (Raise TransportError, self, emit ev w)
    end.

(** httpx [Response.is_success]. *)
Definition is_success (r : response) : bool :=
  (200 <=? status_code r) && (status_code r <=? 299).

(** httpx [Response.raise_for_status()]: raises unless the status is 2xx;
    the exception carries the response. *)
Definition raise_for_status (r : response) : M unit :=
  if is_success r then ret tt else raise (HTTPStatusError r).

(** httpx [Response.json()]. *)
Definition response_json (r : response) : M value :=
  fun self w =>
    match content r with
    | Json doc => (Ok doc, self, emit (JsonDecode (content r)) w)
    | NotJson _ => (Raise JSONDecodeError, self, emit (JsonDecode (content r)) w)
    end.

(** ** Token management (client.py, [_get_token_sync]) *)

(** The test of line 39:
    [self._access_token and self._token_expiry and datetime.now() < self._token_expiry]. *)
Definition token_is_fresh (self : AmadeusClient) (t : Z) : bool :=
  py_truthy (_access_token self) &&
  match _token_expiry self with
  | Some expiry => t <? expiry
  | None => false
  end.

Definition _get_token_sync : M value :=
  self <- get_self ;;
  t <- datetime_now ;;
  if token_is_fresh self t then ret (_access_token self)
  else
    response <- http_call (TokenPost (base_url self ++ "/v1/security/oauth2/token")%string
                                     (client_id self) (client_secret self)) ;;
    raise_for_status response ;;;
    data <- response_json response ;;
    tok <- lift (py_subscript data "access_token") ;;
    set_access_token tok ;;;
    t' <- datetime_now ;;
    expires_in <- lift (py_get data "expires_in" (VInt 1700)) ;;
    lifetime <- lift (py_sub_int expires_in 60) ;;
    set_token_expiry (t' + timedelta_seconds lifetime) ;;;
    self' <- get_self ;;
    ret (_access_token self').

(** ** Request execution (client.py, [request] and [delete_request]) *)

Definition request (method endpoint : string) (params json_data : option value)
                   (timeout : Z) : M value :=
  token <- _get_token_sync ;;
  self <- get_self ;;
  response <- http_call (Request method (base_url self ++ endpoint)%string
                                 params json_data token timeout) ;;
  raise_for_status response ;;;
  if status_code response =? 204 then ret (VDict [])
  else response_json response.

Definition delete_request (endpoint : string) (timeout : Z) : M value :=
  token <- _get_token_sync ;;
  self <- get_self ;;
  response <- http_call (Delete (base_url self ++ endpoint)%string token timeout) ;;
  if status_code response =? 204 then ret (VDict [("status", VStr "success")])
  else
    raise_for_status response ;;;
    response_json response.

(** ** Python built-ins used by the operations *)

(** [s.upper()], on the ASCII letters. *)
Definition upper_char (c : ascii) : ascii :=
  let n := nat_of_ascii c in
  if ((97 <=? n) && (n <=? 122))%nat then ascii_of_nat (n - 32) else c.

Fixpoint upper (s : string) : string :=
  match s with
  | EmptyString => EmptyString
  | String c rest => String (upper_char c) (upper rest)
  end.

(** [l[:n]] on a sequence; a negative [n] counts from the end. *)
Definition slice_to {A} (n : Z) (l : list A) : list A :=
  if 0 <=? n then firstn (Z.to_nat n) l
  else firstn (Z.to_nat (Z.of_nat (List.length l) + n)) l.

(** [v[:n]]: lists and strings can be sliced; on anything else the
    subscript raises (on a dict, [TypeError] up to Python 3.11). *)
Definition py_slice_to (n : Z) (v : value) : result value :=
  match v with
  | VList items => Ok (VList (slice_to n items))
  | VStr s => Ok (VStr (string_of_list_ascii (slice_to n (list_ascii_of_string s))))
  | _ => Raise TypeError
  end.

(** The items a [for] loop or a comprehension visits: the elements of a
    list, the characters of a string, the keys of a dict. *)
Definition py_iter (v : value) : result (list value) :=
  match v with
  | VList items => Ok items
  | VStr s => Ok (map (fun c => VStr (String c EmptyString)) (list_ascii_of_string s))
  | VDict entries => Ok (map (fun kv => VStr (fst kv)) entries)
  | _ => Raise TypeError
  end.

(** [[f(x) for x in l]], and the [for x in l: result.append(f(x))] loop. *)
Fixpoint mapM_res {A B} (f : A -> result B) (l : list A) : result (list B) :=
  match l with
  | [] => Ok []
  | x :: rest =>
      (y <~ f x ;;
       ys <~ mapM_res f rest ;;
       Ok (y :: ys))%res
  end.

(** [sep.join(items)]: every item has to be a string. *)
Fixpoint py_join (sep : string) (items : list value) : result string :=
  match items with
  | [] => Ok EmptyString
  | [VStr s] => Ok s
  | VStr s :: rest => (tail <~ py_join sep rest ;; Ok (s ++ sep ++ tail)%string)%res
  | _ :: _ => Raise TypeError
  end.

(** [v == "..."] against a string literal. *)
Definition py_eq_str (v : value) (s : string) : bool :=
  match v with
  | VStr s' => String.eqb s' s
  | _ => false
  end.

(** Python's [float]: the values [float(...)] can return, their [<], and the
    two conversions the operations use.  [float_of_str s = None] stands for
    [float(s)] raising [ValueError]. *)
Class PyFloat : Type := {
  pyfloat : Type;
  float_lt : pyfloat -> pyfloat -> bool;
  float_of_int : Z -> pyfloat;
  float_of_str : string -> option pyfloat
}.

(** What the sorting and minimum results need of [<]: it is a strict weak
    order.  This holds of the floats other than NaN. *)
Class PyFloatOrder (F : PyFloat) : Prop := {
  float_lt_asym : forall a b, float_lt a b = true -> float_lt b a = false;
  float_lt_negtrans : forall a b c,
      float_lt b a = false -> float_lt c b = false -> float_lt c a = false
}.

Section Builtins.
Context {F : PyFloat}.

(** [float(v)]. *)
Definition py_float (v : value) : result pyfloat :=
  match v with
  | VInt z => Ok (float_of_int z)
  | VBool b => Ok (float_of_int (if b then 1 else 0))
  | VStr s =>
      match float_of_str s with
      | Some x => Ok x
      | None => Raise ValueError
      end
  | _ => Raise TypeError
  end.

(** [min(items, key=key)]: the first item whose key no other key is below. *)
Fixpoint min_loop (key : value -> result pyfloat) (best : value)
         (kbest : pyfloat) (rest : list value) : result value :=
  match rest with
  | [] => Ok best
  | x :: rest' =>
      (kx <~ key x ;;
       if float_lt kx kbest then min_loop key x kx rest'
       else min_loop key best kbest rest')%res
  end.

Definition py_min (key : value -> result pyfloat) (items : list value)
  : result value :=
  match items with
  | [] => Raise ValueError
  | x :: rest => (kx <~ key x ;; min_loop key x kx rest)%res
  end.

(** [sorted(items, key=key)]: the keys are computed once, in order, and
    the sort is stable.  A stable insertion sort stands for it: on keys
    that [<] orders as a strict weak order every stable sort returns the
    same list. *)
Fixpoint insert_keyed (kx : pyfloat * value) (l : list (pyfloat * value))
  : list (pyfloat * value) :=
  match l with
  | [] => [kx]
  | ky :: rest =>
      if float_lt (fst ky) (fst kx) then ky :: insert_keyed kx rest
      else kx :: ky :: rest
  end.

Fixpoint sort_keyed (l : list (pyfloat * value)) : list (pyfloat * value) :=
  match l with
  | [] => []
  | kx :: rest => insert_keyed kx (sort_keyed rest)
  end.

Definition py_sorted (key : value -> result pyfloat) (items : list value)
  : result (list value) :=
  (keyed <~ mapM_res (fun x => k <~ key x ;; Ok (k, x)) items ;;
   Ok (map snd (sort_keyed keyed)))%res.

End Builtins.

(** ** Endpoint operations *)

(** The [client.request(...)] and [client.delete_request(...)] calls of the
    operations leave [timeout] at its default of 30. *)
Definition default_timeout : Z := 30.

Definition dget (d : value) (k : string) : result value := py_get d k VNone.

Section Operations.
Context {F : PyFloat}.

(** [str(e)] for a caught exception; the text is httpx's and Python's. *)
Variable str_of_exn : exn -> string.

(** *** operations/misc.py *)

Definition shape_poi (poi : value) : result value :=
  (name <~ dget poi "name" ;;
   category <~ dget poi "category" ;;
   tags <~ py_get poi "tags" (VList []) ;;
   rank <~ dget poi "rank" ;;
   location <~ dget poi "geoCode" ;;
   Ok (VDict [("name", name); ("category", category); ("tags", tags);
              ("rank", rank); ("location", location)]))%res.

Definition get_travel_recommendations (city_code category : string) : M value :=
  let params := VDict [("cityCode", VStr (upper city_code));
                       ("category", VStr category)] in
  outcome <- attempt (request "GET" "/v1/reference-data/locations/pois"
                              (Some params) None default_timeout) ;;
  match outcome with
  | Raise e =>
      ret (VList [VDict [("message",
             VStr ("Recommendations not available: " ++ str_of_exn e)%string)]])
  | Ok data =>
      lift (pois <~ py_get data "data" (VList []) ;;
            first <~ py_slice_to 15 pois ;;
            items <~ py_iter first ;;
            result <~ mapM_res shape_poi items ;;
            Ok (VList result))%res
  end.

Definition shape_destination (dest : value) : result value :=
  (name <~ dget dest "name" ;;
   iata <~ dget dest "iataCode" ;;
   address <~ py_get dest "address" (VDict []) ;;
   country <~ dget address "countryName" ;;
   score <~ dget dest "score" ;;
   sub_type <~ dget dest "subType" ;;
   location <~ dget dest "geoCode" ;;
   Ok (VDict [("destination", name); ("iata_code", iata); ("country", country);
              ("score", score); ("type", sub_type); ("location", location)]))%res.

Definition get_recommended_destinations (origin_cities traveler_interest : string)
  : M value :=
  let params := VDict [("cityCodes", VStr (upper origin_cities));
                       ("travelerCountryCode", VStr "US")] in
  data <- request "GET" "/v1/reference-data/recommended-locations"
                  (Some params) None default_timeout ;;
  lift (dests <~ py_get data "data" (VList []) ;;
        first <~ py_slice_to 15 dests ;;
        items <~ py_iter first ;;
        destinations <~ mapM_res shape_destination items ;;
        Ok (VDict [("based_on", VStr origin_cities);
                   ("recommendations", VList destinations)]))%res.

Definition parse_trip_document (document_content document_type : string) : M value :=
  let request_body :=
    VDict [("data", VDict [("type", VStr "trip-parser-job");
                           ("content", VStr document_content)])] in
  data <- request "POST" "/v3/travel/trip-parser/pnr-documents"
                  None (Some request_body) default_timeout ;;
  lift (result <~ py_get data "data" (VDict []) ;;
        job_id <~ dget result "id" ;;
        status <~ dget result "status" ;;
        trips <~ py_get result "trips" (VList []) ;;
        Ok (VDict [("job_id", job_id); ("status", status); ("trips", trips)]))%res.

Definition get_parsed_trip (document_id : string) : M value :=
  data <- request "GET" ("/v3/travel/trip-parser/pnr-documents/" ++ document_id)%string
                  None None default_timeout ;;
  lift (result <~ py_get data "data" (VDict []) ;;
        doc_id <~ dget result "id" ;;
        status <~ dget result "status" ;;
        trips <~ py_get result "trips" (VList []) ;;
        Ok (VDict [("document_id", doc_id); ("status", status); ("trips", trips)]))%res.

(** *** operations/flights.py *)

Definition shape_inspiration (dest : value) : result value :=
  (destination <~ dget dest "destination" ;;
   departure <~ dget dest "departureDate" ;;
   returning <~ dget dest "returnDate" ;;
   price <~ py_get dest "price" (VDict []) ;;
   total <~ dget price "total" ;;
   Ok (VDict [("destination", destination); ("departure_date", departure);
              ("return_date", returning); ("price", total)]))%res.

Definition search_flight_inspiration (origin : string) (max_price : option Z)
           (departure_date : option string) : M value :=
  let params0 := [("origin", VStr (upper origin))] in
  let params1 :=
    match max_price with
    | Some p => if negb (p =? 0) then params0 ++ [("maxPrice", VInt p)] else params0
    | None => params0
    end in
  let params2 :=
    match departure_date with
    | Some d => if negb (String.eqb d "") then params1 ++ [("departureDate", VStr d)]
                else params1
    | None => params1
    end in
  data <- request "GET" "/v1/shopping/flight-destinations"
                  (Some (VDict params2)) None default_timeout ;;
  lift (dests <~ py_get data "data" (VList []) ;;
        first <~ py_slice_to 20 dests ;;
        items <~ py_iter first ;;
        result <~ mapM_res shape_inspiration items ;;
        Ok (VList result))%res.

(** *** operations/hotels.py *)

(** Line 30: the identifiers of the first [max_results] hotels. *)
Definition hotel_ids_of (hotels_data : value) (max_results : Z)
  : result (list value) :=
  (hotels <~ py_get hotels_data "data" (VList []) ;;
   first <~ py_slice_to max_results hotels ;;
   items <~ py_iter first ;;
   mapM_res (fun h => dget h "hotelId") items)%res.

(** The key of line 51: [float(x.get("price", {}).get("total", 999999))]. *)
Definition offer_price_key (x : value) : result pyfloat :=
  (price <~ py_get x "price" (VDict []) ;;
   total <~ py_get price "total" (VInt 999999) ;;
   py_float total)%res.

(** The key of line 66: [float(x.get("price", {}).get("total", 0))]. *)
Definition result_price_key (x : value) : result pyfloat :=
  (price <~ py_get x "price" (VDict []) ;;
   total <~ py_get price "total" (VInt 0) ;;
   py_float total)%res.

(** Lines 53-65: the entry appended for a hotel and its cheapest offer. *)
Definition shape_hotel (hotel_info cheapest : value) : result value :=
  (hotel_id <~ dget hotel_info "hotelId" ;;
   name <~ dget hotel_info "name" ;;
   rating <~ dget hotel_info "rating" ;;
   latitude <~ dget hotel_info "latitude" ;;
   longitude <~ dget hotel_info "longitude" ;;
   price <~ py_get cheapest "price" (VDict []) ;;
   total <~ dget price "total" ;;
   price' <~ py_get cheapest "price" (VDict []) ;;
   currency <~ dget price' "currency" ;;
   room <~ py_get cheapest "room" (VDict []) ;;
   estimated <~ py_get room "typeEstimated" (VDict []) ;;
   room_type <~ dget estimated "category" ;;
   offer_id <~ dget cheapest "id" ;;
   Ok (VDict [("hotel_id", hotel_id); ("name", name); ("rating", rating);
              ("latitude", latitude); ("longitude", longitude);
              ("price", VDict [("total", total); ("currency", currency)]);
              ("room_type", room_type); ("offer_id", offer_id)]))%res.

(** Lines 46-65: the loop over the hotels of the offers payload; a hotel
    without offers appends nothing. *)
Fixpoint hotel_loop (hotels : list value) : result (list value) :=
  match hotels with
  | [] => Ok []
  | hotel :: rest =>
      (hotel_info <~ py_get hotel "hotel" (VDict []) ;;
       offers <~ py_get hotel "offers" (VList []) ;;
       if py_truthy offers then
         candidates <~ py_iter offers ;;
         cheapest <~ py_min offer_price_key candidates ;;
         entry <~ shape_hotel hotel_info cheapest ;;
         entries <~ hotel_loop rest ;;
         Ok (entry :: entries)
       else hotel_loop rest)%res
  end.

(** Lines 45-66: shaping and sorting of the offers payload. *)
Definition shape_hotel_offers (offers_data : value) : result value :=
  (data <~ py_get offers_data "data" (VList []) ;;
   hotels <~ py_iter data ;;
   result <~ hotel_loop hotels ;;
   sorted <~ py_sorted result_price_key result ;;
   Ok (VList sorted))%res.

Definition search_hotels (city_code check_in check_out : string)
           (adults rooms radius max_results : Z) : M value :=
  let params := VDict [("cityCode", VStr (upper city_code));
                       ("radius", VInt radius);
                       ("radiusUnit", VStr "KM")] in
  hotels_data <- request "GET" "/v1/reference-data/locations/hotels/by-city"
                         (Some params) None default_timeout ;;
  hotel_ids <- lift (hotel_ids_of hotels_data max_results) ;;
  match hotel_ids with
  | [] => ret (VList [])
  | _ :: _ =>
      joined <- lift (py_join "," hotel_ids) ;;
      let offers_params := VDict [("hotelIds", VStr joined);
                                  ("checkInDate", VStr check_in);
                                  ("checkOutDate", VStr check_out);
                                  ("adults", VInt adults);
                                  ("roomQuantity", VInt rooms);
                                  ("currency", VStr "USD")] in
      offers_data <- request "GET" "/v3/shopping/hotel-offers"
                             (Some offers_params) None default_timeout ;;
      lift (shape_hotel_offers offers_data)
  end.

(** *** operations/orders.py and operations/transfers.py: cancellation *)

Definition cancel_flight_order (order_id : string) : M value :=
  result <- delete_request ("/v1/booking/flight-orders/" ++ order_id)%string
                           default_timeout ;;
  status <- lift (dget result "status") ;;
  if py_eq_str status "success" then
    ret (VDict [("message",
           VStr ("Order " ++ order_id ++ " cancelled successfully")%string)])
  else
    ret (VDict [("message", VStr "Cancellation processed"); ("response", result)]).

Definition cancel_transfer (order_id : string) : M value :=
  result <- delete_request ("/v1/booking/transfer-orders/" ++ order_id)%string
                           default_timeout ;;
  status <- lift (dget result "status") ;;
  if py_eq_str status "success" then
    ret (VDict [("message",
           VStr ("Transfer " ++ order_id ++ " cancelled successfully")%string)])
  else
    ret (VDict [("message", VStr "Cancellation processed"); ("response", result)]).

End Operations.

(** ** Scenario support: a caller that waits between token requests *)

(** The caller lets [dt] microseconds pass. *)
Definition sleep (dt : Z) : M unit :=
  fun self w => (Ok tt, self, mkWorld (now w + dt) (backend w) (log w)).

(** One [_get_token_sync] call after each wait of [waits]. *)
Fixpoint token_calls (waits : list Z) : M (list value) :=
  match waits with
  | [] => ret []
  | dt :: rest =>
      sleep dt ;;;
      tok <- _get_token_sync ;;
      toks <- token_calls rest ;;
      ret (tok :: toks)
  end.

(** Every call of a caller that starts at time [t] and waits [waits] falls
    before [expiry]. *)
Fixpoint within_window (t expiry : Z) (waits : list Z) : Prop :=
  match waits with
  | [] => True
  | dt :: rest => t + dt < expiry /\ within_window (t + dt) expiry rest
  end.


Definition token_url (self : AmadeusClient) : string :=
  (base_url self ++ "/v1/security/oauth2/token")%string.

(** ** Concrete clients and services for the scenarios *)

Definition test_client : AmadeusClient :=
  mkClient "key" "secret" "https://test.api.amadeus.com" VNone None.

Definition signed_in (tok : string) (expiry : Z) : AmadeusClient :=
  mkClient "key" "secret" "https://test.api.amadeus.com" (VStr tok) (Some expiry).

Definition token_reply (tok : string) (expires_in : Z) : reply :=
  Responds 250000
    (mkResponse 200 (Json (VDict [("access_token", VStr tok);
                                  ("expires_in", VInt expires_in)]))).

Definition json_reply (status : Z) (doc : value) : reply :=
  Responds 120000 (mkResponse status (Json doc)).

Definition text_reply (status : Z) (text : string) : reply :=
  Responds 120000 (mkResponse status (NotJson text)).

Definition world_at (t : Z) (script : list reply) : world := mkWorld t script [].

(** The world after one HTTP exchange that took [dt] and left [rest] of the
    script. *)
Definition after_call (w : world) (dt : Z) (rest : list reply) (ev : event) : world :=
  mkWorld (now w + dt) rest (log w ++ [ev]).

(** ** A float instance for the scenarios: exact decimals

    Prices such as ["150"] or ["350.00"] are read as the rationals they
    denote and compared exactly; rounding to binary64 is left out. *)

Definition digit_value (c : ascii) : option Z :=
  let n := nat_of_ascii c in
  if ((48 <=? n) && (n <=? 57))%nat then Some (Z.of_nat (n - 48)) else None.

(** The leading digits of [s]: their value continuing from [acc], how many
    they are, and what follows them. *)
Fixpoint read_digits (s : string) (acc : Z) (count : nat) : Z * nat * string :=
  match s with
  | String c rest =>
      match digit_value c with
      | Some d => read_digits rest (10 * acc + d) (S count)
      | None => (acc, count, s)
      end
  | EmptyString => (acc, count, s)
  end.

Definition decimal_of_string (s : string) : option Q :=
  let (negative, digits) :=
    match s with
    | String "-" rest => (true, rest)
    | _ => (false, s)
    end in
  let '(whole, n, rest) := read_digits digits 0 0 in
  match n, rest with
  | O, _ => None
  | _, EmptyString => Some (inject_Z (if negative then - whole else whole))
  | _, String "." fraction =>
      let '(num, k, rest') := read_digits fraction whole 0 in
      match rest' with
      | EmptyString =>
          Some (Qmake (if negative then - num else num) (Pos.of_nat (10 ^ k)))
      | _ => None
      end
  | _, _ => None
  end.

#[local] Instance DecimalFloat : PyFloat := {|
  pyfloat := Q;
  float_lt := fun a b => negb (Qle_bool b a);
  float_of_int := inject_Z;
  float_of_str := decimal_of_string
|}.

(** ** Vocabulary of the properties *)

(** [op] lets a failure of its request [req] through: same exception, same
    final client and world. *)
Definition propagates (req op : M value) : Prop :=
  forall self w e self' w',
    req self w = (Raise e, self', w') -> op self w = (Raise e, self', w').

(** [needle in hay]. *)
Definition contains (needle hay : string) : Prop :=
  exists before after, hay = (before ++ needle ++ after)%string.

Definition is_dict (v : value) : bool :=
  match v with
  | VDict _ => true
  | _ => false
  end.

(** The key [k] of a dict is absent or holds a dict. *)
Definition dict_or_absent (entries : list (string * value)) (k : string) : bool :=
  match assoc k entries with
  | Some (VDict _) | None => true
  | Some _ => false
  end.

(** A destination of the flight-inspiration payload as the service sends it:
    an object whose [price], if any, is an object. *)
Definition inspiration_item (v : value) : bool :=
  match v with
  | VDict entries => dict_or_absent entries "price"
  | _ => false
  end.

Section HotelVocabulary.
Context {F : PyFloat}.









End HotelVocabulary.

(** ** The hotel scenarios *)


Definition priced (offer_id total category : string) : value :=
  VDict [("id", VStr offer_id);
         ("price", VDict [("total", VStr total); ("currency", VStr "USD")]);
         ("room", VDict [("typeEstimated", VDict [("category", VStr category)])])].

Definition two_hotels_reply : reply :=
  json_reply 200
    (VDict [("data",
       VList [VDict [("hotel", VDict [("hotelId", VStr "H1"); ("name", VStr "Hotel A");
                                      ("rating", VStr "4")]);
                     ("offers", VList [priced "O1" "200" "STANDARD"])];
              VDict [("hotel", VDict [("hotelId", VStr "H2"); ("name", VStr "Hotel B");
                                      ("rating", VStr "5")]);
                     ("offers", VList [priced "O2" "150" "DELUXE"])]])]).

Definition shaped (hotel_id name rating total category offer_id : string) : value :=
  VDict [("hotel_id", VStr hotel_id); ("name", VStr name); ("rating", VStr rating);
         ("latitude", VNone); ("longitude", VNone);
         ("price", VDict [("total", VStr total); ("currency", VStr "USD")]);
         ("room_type", VStr category); ("offer_id", VStr offer_id)].


(** ** More of the code: construction of the client

    [config.py] reads the three settings from the environment, with the
    defaults of [default_settings] for what the environment leaves out. *)

Record Settings : Type := mkSettings {
  settings_client_id : string;
  settings_client_secret : string;
  settings_base_url : string
}.

Definition default_settings : Settings :=
  mkSettings "" "" "https://test.api.amadeus.com".

(** [arg or setting] for an optional string argument. *)
Definition or_setting (arg : option string) (setting : string) : string :=
  match arg with
  | Some s => if String.eqb s "" then setting else s
  | None => setting
  end.

(** client.py, [AmadeusClient.__init__], [settings] being what
    [get_settings()] returns. *)
Definition new_client (settings : Settings)
           (client_id client_secret base_url : option string) : AmadeusClient :=
  mkClient (or_setting client_id (settings_client_id settings))
           (or_setting client_secret (settings_client_secret settings))
           (or_setting base_url (settings_base_url settings))
           VNone None.

(** ** More of the code: indexing guarded by a truth test *)

(** [v[0]] for a truthy [v]; nothing for a falsy one.  A non-empty dict of a
    JSON document has no key [0]. *)
Definition first_of (v : value) : option (result value) :=
  match v with
  | VList (x :: _) => Some (Ok x)
  | VStr (String c _) => Some (Ok (VStr (String c EmptyString)))
  | VDict (_ :: _) => Some (Raise (KeyError "0"))
  | VInt z => if z =? 0 then None else Some (Raise TypeError)
  | VBool true => Some (Raise TypeError)
  | _ => None
  end.

(** [v[-1] if len(v) > 1 else {}]. *)
Definition last_if_several (v : value) : result value :=
  match v with
  | VList items =>
      if 1 <? Z.of_nat (List.length items) then Ok (List.last items (VDict []))
      else Ok (VDict [])
  | VStr s =>
      if 1 <? Z.of_nat (String.length s)
      then Ok (VStr (String (List.last (list_ascii_of_string s) zero) EmptyString))
      else Ok (VDict [])
  | VDict entries =>
      if 1 <? Z.of_nat (List.length entries) then Raise (KeyError "-1")
      else Ok (VDict [])
  | _ => Raise TypeError
  end.

(** [str(b).lower()]. *)
Definition lower_str_bool (b : bool) : string := if b then "true" else "false".

(** ** More of the code: the other operations of hotels.py and flights.py *)

(** *** operations/hotels.py *)

Definition shape_offer_detail (offer : value) : result value :=
  (offer_id <~ dget offer "id" ;;
   check_in <~ dget offer "checkInDate" ;;
   check_out <~ dget offer "checkOutDate" ;;
   room <~ dget offer "room" ;;
   price <~ dget offer "price" ;;
   policies <~ py_get offer "policies" (VDict []) ;;
   cancellation <~ dget policies "cancellation" ;;
   Ok (VDict [("id", offer_id); ("check_in", check_in); ("check_out", check_out);
              ("room", room); ("price", price); ("cancellation", cancellation)]))%res.

(** Lines 76-97: the details of one hotel of the payload. *)
Definition shape_hotel_details (hotel : value) : result value :=
  (hotel_info <~ py_get hotel "hotel" (VDict []) ;;
   hotel_id <~ dget hotel_info "hotelId" ;;
   name <~ dget hotel_info "name" ;;
   description <~ py_get hotel_info "description" (VDict []) ;;
   text <~ dget description "text" ;;
   rating <~ dget hotel_info "rating" ;;
   address <~ dget hotel_info "address" ;;
   contact <~ dget hotel_info "contact" ;;
   amenities <~ py_get hotel_info "amenities" (VList []) ;;
   offers <~ py_get hotel "offers" (VList []) ;;
   items <~ py_iter offers ;;
   shaped <~ mapM_res shape_offer_detail items ;;
   Ok (VDict [("hotel_id", hotel_id); ("name", name); ("description", text);
              ("rating", rating); ("address", address); ("contact", contact);
              ("amenities", amenities); ("offers", VList shaped)]))%res.

Definition get_hotel_details (hotel_id : string) : M value :=
  data <- request "GET" "/v3/shopping/hotel-offers"
                  (Some (VDict [("hotelIds", VStr hotel_id)])) None default_timeout ;;
  lift (hotels <~ py_get data "data" (VList []) ;;
        match first_of hotels with
        | None => Ok (VDict [("message", VStr "Hotel not found")])
        | Some first => hotel <~ first ;; shape_hotel_details hotel
        end)%res.

Definition shape_hotel_match (hotel : value) : result value :=
  (hotel_id <~ dget hotel "hotelId" ;;
   name <~ dget hotel "name" ;;
   address <~ py_get hotel "address" (VDict []) ;;
   city <~ dget address "cityName" ;;
   address' <~ py_get hotel "address" (VDict []) ;;
   country <~ dget address' "countryCode" ;;
   location <~ dget hotel "geoCode" ;;
   Ok (VDict [("hotel_id", hotel_id); ("name", name); ("city", city);
              ("country", country); ("location", location)]))%res.

Definition search_hotel_by_name (keyword : string) (max_results : Z) : M value :=
  let params := VDict [("keyword", VStr keyword);
                       ("subType", VStr "HOTEL_LEISURE");
                       ("max", VInt max_results)] in
  data <- request "GET" "/v1/reference-data/locations/hotel"
                  (Some params) None default_timeout ;;
  lift (hotels <~ py_get data "data" (VList []) ;;
        items <~ py_iter hotels ;;
        result <~ mapM_res shape_hotel_match items ;;
        Ok (VList result))%res.

Definition sentiment_keys : list string :=
  ["location"; "comfort"; "service"; "staff"; "internet"; "food"; "facilities"].

Definition shape_hotel_rating (hotel : value) : result value :=
  (hotel_id <~ dget hotel "hotelId" ;;
   overall <~ dget hotel "overallRating" ;;
   reviews <~ dget hotel "numberOfReviews" ;;
   scores <~ mapM_res (fun k => scores <~ py_get hotel "sentimentScores" (VDict []) ;;
                                score <~ dget scores k ;;
                                Ok (k, score))
                      sentiment_keys ;;
   Ok (VDict [("hotel_id", hotel_id); ("overall_rating", overall);
              ("number_of_reviews", reviews); ("sentiment_scores", VDict scores)]))%res.

Definition get_hotel_ratings (hotel_ids : string) : M value :=
  data <- request "GET" "/v2/e-reputation/hotel-sentiments"
                  (Some (VDict [("hotelIds", VStr hotel_ids)])) None default_timeout ;;
  lift (hotels <~ py_get data "data" (VList []) ;;
        items <~ py_iter hotels ;;
        result <~ mapM_res shape_hotel_rating items ;;
        Ok (VList result))%res.

(** Line 155 reads [data.get("data", [{}])[0] if data.get("data") else {}]:
    when the test holds the key is there, so the second lookup returns the
    object the test looked at. *)
Definition book_hotel (offer_id : string) (guests payment : value) : M value :=
  let request_body :=
    VDict [("data", VDict [("offerId", VStr offer_id);
                           ("guests", guests);
                           ("payments", VList [payment])])] in
  data <- request "POST" "/v1/booking/hotel-bookings"
                  None (Some request_body) default_timeout ;;
  lift (bookings <~ dget data "data" ;;
        result <~ match first_of bookings with
                  | Some first => first
                  | None => Ok (VDict [])
                  end ;;
        booking_id <~ dget result "id" ;;
        confirmation <~ dget result "providerConfirmationId" ;;
        status <~ dget result "bookingStatus" ;;
        Ok (VDict [("booking_id", booking_id);
                   ("provider_confirmation", confirmation);
                   ("status", status)]))%res.

(** *** operations/flights.py *)

Definition shape_segment (seg : value) : result value :=
  (departure <~ py_get seg "departure" (VDict []) ;;
   departure_airport <~ dget departure "iataCode" ;;
   departure' <~ py_get seg "departure" (VDict []) ;;
   departure_time <~ dget departure' "at" ;;
   arrival <~ py_get seg "arrival" (VDict []) ;;
   arrival_airport <~ dget arrival "iataCode" ;;
   arrival' <~ py_get seg "arrival" (VDict []) ;;
   arrival_time <~ dget arrival' "at" ;;
   carrier <~ dget seg "carrierCode" ;;
   number <~ dget seg "number" ;;
   duration <~ dget seg "duration" ;;
   Ok (VDict [("departure", VDict [("airport", departure_airport);
                                   ("time", departure_time)]);
              ("arrival", VDict [("airport", arrival_airport);
                                 ("time", arrival_time)]);
              ("carrier", carrier); ("flight_number", number);
              ("duration", duration)]))%res.

Definition shape_itinerary (itin : value) : result value :=
  (segs <~ py_get itin "segments" (VList []) ;;
   items <~ py_iter segs ;;
   segments <~ mapM_res shape_segment items ;;
   duration <~ dget itin "duration" ;;
   Ok (VDict [("duration", duration); ("segments", VList segments)]))%res.

Definition shape_flight_offer (offer : value) : result value :=
  (itins <~ py_get offer "itineraries" (VList []) ;;
   items <~ py_iter itins ;;
   itineraries <~ mapM_res shape_itinerary items ;;
   offer_id <~ dget offer "id" ;;
   price <~ py_get offer "price" (VDict []) ;;
   total <~ dget price "total" ;;
   price' <~ py_get offer "price" (VDict []) ;;
   currency <~ dget price' "currency" ;;
   seats <~ dget offer "numberOfBookableSeats" ;;
   Ok (VDict [("id", offer_id);
              ("price", VDict [("total", total); ("currency", currency)]);
              ("itineraries", VList itineraries);
              ("seats_available", seats)]))%res.

(** The query of [search_flights]: [returnDate] is added for a non-empty
    return date only. *)
Definition flight_search_params (origin destination departure_date : string)
           (return_date : option string) (adults : Z) (travel_class : string)
           (nonstop : bool) (max_results : Z) : value :=
  let params := [("originLocationCode", VStr (upper origin));
                 ("destinationLocationCode", VStr (upper destination));
                 ("departureDate", VStr departure_date);
                 ("adults", VInt adults);
                 ("travelClass", VStr travel_class);
                 ("nonStop", VStr (lower_str_bool nonstop));
                 ("max", VInt max_results);
                 ("currencyCode", VStr "USD")] in
  match return_date with
  | Some d => if negb (String.eqb d "") then VDict (params ++ [("returnDate", VStr d)])
              else VDict params
  | None => VDict params
  end.

Definition search_flights (origin destination departure_date : string)
           (return_date : option string) (adults : Z) (travel_class : string)
           (nonstop : bool) (max_results : Z) : M value :=
  data <- request "GET" "/v2/shopping/flight-offers"
                  (Some (flight_search_params origin destination departure_date
                           return_date adults travel_class nonstop max_results))
                  None default_timeout ;;
  lift (offers <~ py_get data "data" (VList []) ;;
        items <~ py_iter offers ;;
        result <~ mapM_res shape_flight_offer items ;;
        Ok (VList result))%res.

Definition get_flight_price (flight_offer : value) : M value :=
  let body := VDict [("data", VDict [("type", VStr "flight-offers-pricing");
                                     ("flightOffers", VList [flight_offer])])] in
  data <- request "POST" "/v1/shopping/flight-offers/pricing"
                  None (Some body) default_timeout ;;
  lift (result <~ py_get data "data" (VDict []) ;;
        offers <~ py_get result "flightOffers" (VList [VDict []]) ;;
        total <~ match first_of offers with
                 | Some first =>
                     offer <~ first ;;
                     price <~ py_get offer "price" (VDict []) ;;
                     dget price "total"
                 | None => Ok VNone
                 end ;;
        breakdown <~ match first_of offers with
                     | Some first =>
                         offer <~ first ;;
                         py_get offer "travelerPricings" (VList [])
                     | None => Ok (VList [])
                     end ;;
        Ok (VDict [("total_price", total); ("price_breakdown", breakdown)]))%res.

Definition shape_flight_status (label : string) (flight : value) : result value :=
  (segments <~ py_get flight "flightPoints" (VList []) ;;
   departure <~ match first_of segments with
                | Some first => first
                | None => Ok (VDict [])
                end ;;
   arrival <~ last_if_several segments ;;
   departure_airport <~ dget departure "iataCode" ;;
   dep <~ py_get departure "departure" (VDict []) ;;
   departure_terminal <~ dget dep "terminal" ;;
   dep' <~ py_get departure "departure" (VDict []) ;;
   departure_at <~ dget dep' "at" ;;
   arrival_airport <~ dget arrival "iataCode" ;;
   arr <~ py_get arrival "arrival" (VDict []) ;;
   arrival_terminal <~ dget arr "terminal" ;;
   arr' <~ py_get arrival "arrival" (VDict []) ;;
   arrival_at <~ dget arr' "at" ;;
   designator <~ py_get flight "flightDesignator" (VDict []) ;;
   aircraft <~ dget designator "aircraftType" ;;
   duration <~ dget flight "duration" ;;
   Ok (VDict [("flight", VStr label);
              ("departure", VDict [("airport", departure_airport);
                                   ("terminal", departure_terminal);
                                   ("scheduled", departure_at)]);
              ("arrival", VDict [("airport", arrival_airport);
                                 ("terminal", arrival_terminal);
                                 ("scheduled", arrival_at)]);
              ("aircraft", aircraft); ("duration", duration)]))%res.

Definition get_flight_status (carrier_code flight_number departure_date : string)
  : M value :=
  let params := VDict [("carrierCode", VStr (upper carrier_code));
                       ("flightNumber", VStr flight_number);
                       ("scheduledDepartureDate", VStr departure_date)] in
  data <- request "GET" "/v2/schedule/flights" (Some params) None default_timeout ;;
  lift (flights <~ py_get data "data" (VList []) ;;
        items <~ py_iter flights ;;
        result <~ mapM_res
                    (shape_flight_status (upper carrier_code ++ flight_number)%string)
                    items ;;
        Ok (VList result))%res.

(** ** More of the code: the tool layer of server.py

    The module keeps one client for all tools, built on first use; a tool
    runs its operation on that client and renders the result with
    [json.dumps], a parameter here.  The client is one object: what an
    operation does to it is what the next tool finds. *)

Definition G (A : Type) : Type :=
  option AmadeusClient -> world -> result A * option AmadeusClient * world.

(** server.py, [_get_client]. *)
Definition _get_client (settings : Settings) : G AmadeusClient :=
  fun slot w =>
    match slot with
    | None =>
        let c := new_client settings None None None in (Ok c, Some c, w)
    | Some c => (Ok c, Some c, w)
    end.

(** [_json(op(_get_client(), ...))]: the body of a tool. *)
Definition tool (settings : Settings) (json_dumps : value -> string)
           (op : M value) : G string :=
  fun slot w =>
    match _get_client settings slot w with
    | (Ok client, _, w0) =>
        match op client w0 with
        | (Ok v, client', w') => (Ok (json_dumps v), Some client', w')
        | (Raise e, client', w') => (Raise e, Some client', w')
        end
    | (Raise e, slot', w0) => (Raise e, slot', w0)
    end.

Module server.

Definition get_parsed_trip (settings : Settings) (json_dumps : value -> string)
           (document_id : string) : G string :=
  tool settings json_dumps (get_parsed_trip document_id).

Definition cancel_transfer (settings : Settings) (json_dumps : value -> string)
           (order_id : string) : G string :=
  tool settings json_dumps (cancel_transfer order_id).

End server.

(** ** Vocabulary of the further properties *)

(** [m] leaves the credentials of the client as they are. *)
Definition keeps_credentials {A} (m : M A) : Prop :=
  forall self w r self' w',
    m self w = (r, self', w') ->
    client_id self' = client_id self /\
    client_secret self' = client_secret self /\
    base_url self' = base_url self.

(** The event is a business call, as opposed to token traffic. *)
Definition is_business_call (ev : event) : bool :=
  match ev with
  | Request _ _ _ _ _ _ | Delete _ _ _ => true
  | _ => false
  end.

(** * Properties *)

(** ** The monad and the token manager *)

Lemma get_token_hit :
  forall self w,
    token_is_fresh self (now w) = true ->
    _get_token_sync self w = (Ok (_access_token self), self, w).
Proof.
  intros self w Hfresh. unfold _get_token_sync, bind, get_self, datetime_now, ret.
  rewrite Hfresh. reflexivity.
Qed.

(** What a successful [_get_token_sync] did: it either answered from the
    cache, or made the one token request and stored token and expiry. *)
Lemma get_token_inv :
  forall self w tok self' w',
    _get_token_sync self w = (Ok tok, self', w') ->
    (token_is_fresh self (now w) = true /\ self' = self /\ w' = w
     /\ tok = _access_token self)
    \/
    (token_is_fresh self (now w) = false /\
     exists dt r rest data v lifetime,
       backend w = Responds dt r :: rest /\
       is_success r = true /\
       content r = Json data /\
       py_subscript data "access_token" = Ok tok /\
       py_get data "expires_in" (VInt 1700) = Ok v /\
       py_sub_int v 60 = Ok lifetime /\
       self' = mkClient (client_id self) (client_secret self) (base_url self)
                        tok (Some (now w + dt + timedelta_seconds lifetime)) /\
       w' = mkWorld (now w + dt) rest
                    (log w ++ [TokenPost (token_url self) (client_id self)
                                         (client_secret self);
                               JsonDecode (Json data)])).
Proof.
  intros self w tok self' w' H.
  unfold _get_token_sync, bind, get_self, datetime_now in H.
  destruct (token_is_fresh self (now w)) eqn:Hfresh.
  - left. unfold ret in H. inversion H; subst. auto.
  - right. split; [reflexivity|].
    unfold http_call in H.
    destruct (backend w) as [|[dt r|dt] rest] eqn:Hb; try discriminate.
    unfold raise_for_status in H.
    destruct (is_success r) eqn:Hs; [|discriminate].
    unfold ret, response_json in H.
    destruct (content r) as [text|data] eqn:Hc; [discriminate|].
    unfold lift, set_access_token, set_token_expiry in H.
    destruct (py_subscript data "access_token") as [tok'|] eqn:Htok; [|discriminate].
    destruct (py_get data "expires_in" (VInt 1700)) as [v|] eqn:Hv; [|discriminate].
    destruct (py_sub_int v 60) as [lifetime|] eqn:Hl; [|discriminate].
    simpl in H. inversion H; subst.
    exists dt, r, rest, data, v, lifetime.
    unfold emit, token_url. simpl.
    repeat split; auto.
    rewrite <- app_assoc. reflexivity.
Qed.

Lemma get_token_returns_slot :
  forall self w tok self' w',
    _get_token_sync self w = (Ok tok, self', w') ->
    _access_token self' = tok.
Proof.
  intros self w tok self' w' H.
  destruct (get_token_inv _ _ _ _ _ H) as [(_ & -> & _ & ->) | (_ & H')].
  - reflexivity.
  - destruct H' as (dt & r & rest & data & v & lifetime & _ & _ & _ & _ & _ & _ & -> & _).
    reflexivity.
Qed.



Lemma fresh_after_wait :
  forall self tok expiry t,
    _access_token self = tok -> py_truthy tok = true ->
    _token_expiry self = Some expiry -> t < expiry ->
    token_is_fresh self t = true.
Proof.
  intros self tok expiry t Htok Htruthy Hexp Hlt.
  unfold token_is_fresh. rewrite Htok, Htruthy, Hexp. simpl.
  apply Z.ltb_lt. exact Hlt.
Qed.

(** C2.  When the client holds a token and the clock reads a time strictly
    before the stored expiry, [_get_token_sync] returns that token and
    changes neither the client nor the world: nothing is sent.  A caller who
    asks again and again, waiting as it likes but staying before the expiry,
    gets the same token every time, and the log and the script of the
    service stay as they were: no network call. *)
Theorem cached_token_reused :
  forall self w tok expiry,
    _access_token self = tok -> py_truthy tok = true ->
    _token_expiry self = Some expiry -> now w < expiry ->
    _get_token_sync self w = (Ok tok, self, w) /\
    forall waits,
      within_window (now w) expiry waits ->
      exists w',
        token_calls waits self w = (Ok (repeat tok (List.length waits)), self, w') /\
        log w' = log w /\ backend w' = backend w.
Proof.
  intros self w tok expiry Htok Htruthy Hexp Hlt. split.
  - rewrite get_token_hit.
    + rewrite Htok. reflexivity.
    + eapply fresh_after_wait; eauto.
  - intros waits. revert w Hlt.
    induction waits as [|dt rest IH]; intros w Hlt Hwin.
    + exists w. auto.
    + destruct Hwin as [Hnext Hwin].
      set (w1 := mkWorld (now w + dt) (backend w) (log w)).
      destruct (IH w1 Hnext Hwin) as (w' & Hrun & Hlog & Hback).
      exists w'. split; [|auto].
      cbn [token_calls]. unfold bind at 1. unfold sleep. fold w1.
      unfold bind at 1.
      rewrite get_token_hit
        by (eapply fresh_after_wait; eauto).
      unfold bind at 1. rewrite Hrun. rewrite Htok. reflexivity.
Qed.

(** A client holding a token that expires at 9000000 asks at 5000. *)
Lemma cached_token_reused_witness :
  _get_token_sync (signed_in "T1" 9000000) (world_at 5000 [token_reply "T2" 1799])
  = (Ok (VStr "T1"), signed_in "T1" 9000000, world_at 5000 [token_reply "T2" 1799]) /\
  forall waits,
    within_window 5000 9000000 waits ->
    exists w',
      token_calls waits (signed_in "T1" 9000000)
                  (world_at 5000 [token_reply "T2" 1799])
      = (Ok (repeat (VStr "T1") (List.length waits)), signed_in "T1" 9000000, w') /\
      log w' = [] /\ backend w' = [token_reply "T2" 1799].
Proof.
  apply (cached_token_reused (signed_in "T1" 9000000)
           (world_at 5000 [token_reply "T2" 1799]) (VStr "T1") 9000000).
  - reflexivity.
  - reflexivity.
  - reflexivity.
  - simpl. lia.
Defined.

(** ** The request executor *)

(** [request], once the token is at hand and the service answers. *)
Lemma request_run :
  forall method endpoint params json_data timeout self w tok self1 w1 dt r rest,
    _get_token_sync self w = (Ok tok, self1, w1) ->
    backend w1 = Responds dt r :: rest ->
    request method endpoint params json_data timeout self w =
    let w2 := after_call w1 dt rest
                (Request method (base_url self1 ++ endpoint)%string
                         params json_data tok timeout) in
    if is_success r then
      if status_code r =? 204 then (Ok (VDict []), self1, w2)
      else response_json r self1 w2
    else (Raise (HTTPStatusError r), self1, w2).
Proof.
  intros method endpoint params json_data timeout self w tok self1 w1 dt r rest
         Htok Hb.
  unfold request, bind at 1. rewrite Htok.
  unfold bind at 1, get_self. unfold bind at 1, http_call. rewrite Hb.
  unfold bind, raise_for_status, after_call.
  destruct (is_success r); [|reflexivity].
  unfold ret. destruct (status_code r =? 204); reflexivity.
Qed.

(** [delete_request], once the token is at hand and the service answers. *)
Lemma delete_request_run :
  forall endpoint timeout self w tok self1 w1 dt r rest,
    _get_token_sync self w = (Ok tok, self1, w1) ->
    backend w1 = Responds dt r :: rest ->
    delete_request endpoint timeout self w =
    let w2 := after_call w1 dt rest
                (Delete (base_url self1 ++ endpoint)%string tok timeout) in
    if status_code r =? 204 then (Ok (VDict [("status", VStr "success")]), self1, w2)
    else if is_success r then response_json r self1 w2
    else (Raise (HTTPStatusError r), self1, w2).
Proof.
  intros endpoint timeout self w tok self1 w1 dt r rest Htok Hb.
  unfold delete_request, bind at 1. rewrite Htok.
  unfold bind at 1, get_self. unfold bind at 1, http_call. rewrite Hb.
  unfold after_call.
  destruct (status_code r =? 204); [reflexivity|].
  unfold bind, raise_for_status.
  destruct (is_success r); reflexivity.
Qed.

(** C3.  On a response with status 204, [request] returns the empty dict and
    [delete_request] returns [{"status": "success"}]; in both, the only
    event after the token was obtained is the HTTP call itself: the body is
    never decoded. *)
Theorem no_content_results :
  forall method endpoint params json_data timeout self w tok self1 w1 dt b rest,
    _get_token_sync self w = (Ok tok, self1, w1) ->
    backend w1 = Responds dt (mkResponse 204 b) :: rest ->
    request method endpoint params json_data timeout self w =
      (Ok (VDict []), self1,
       after_call w1 dt rest
         (Request method (base_url self1 ++ endpoint)%string
                  params json_data tok timeout))
    /\
    delete_request endpoint timeout self w =
      (Ok (VDict [("status", VStr "success")]), self1,
       after_call w1 dt rest
         (Delete (base_url self1 ++ endpoint)%string tok timeout)).
Proof.
  intros method endpoint params json_data timeout self w tok self1 w1 dt b rest
         Htok Hb.
  split.
  - rewrite (request_run _ _ _ _ _ _ _ _ _ _ _ _ _ Htok Hb). reflexivity.
  - rewrite (delete_request_run _ _ _ _ _ _ _ _ _ _ Htok Hb). reflexivity.
Qed.

(** A 204 answer with a body that is not JSON. *)
Lemma no_content_results_witness :
  request "GET" "/v1/ping" None None 30 (signed_in "T1" 9000000)
          (world_at 5000 [text_reply 204 "ignored"]) =
    (Ok (VDict []), signed_in "T1" 9000000,
     after_call (world_at 5000 [text_reply 204 "ignored"]) 120000 []
       (Request "GET" "https://test.api.amadeus.com/v1/ping" None None
                (VStr "T1") 30))
  /\
  delete_request "/v1/ping" 30 (signed_in "T1" 9000000)
                 (world_at 5000 [text_reply 204 "ignored"]) =
    (Ok (VDict [("status", VStr "success")]), signed_in "T1" 9000000,
     after_call (world_at 5000 [text_reply 204 "ignored"]) 120000 []
       (Delete "https://test.api.amadeus.com/v1/ping" (VStr "T1") 30)).
Proof.
  apply (no_content_results "GET" "/v1/ping" None None 30
           (signed_in "T1" 9000000) (world_at 5000 [text_reply 204 "ignored"])
           (VStr "T1") (signed_in "T1" 9000000)
           (world_at 5000 [text_reply 204 "ignored"]) 120000
           (NotJson "ignored") []).
  - reflexivity.
  - reflexivity.
Defined.

(** C4.  On a response whose status is outside 200..299 (so neither 2xx nor
    204), [request] raises [HTTPStatusError] carrying that response, status
    and body as received; the only event after the token was obtained is
    the HTTP call itself, so the body, JSON or not, is never decoded. *)
Theorem error_status_raises_unparsed :
  forall method endpoint params json_data timeout self w tok self1 w1 dt r rest,
    _get_token_sync self w = (Ok tok, self1, w1) ->
    backend w1 = Responds dt r :: rest ->
    status_code r < 200 \/ 299 < status_code r ->
    request method endpoint params json_data timeout self w =
      (Raise (HTTPStatusError r), self1,
       after_call w1 dt rest
         (Request method (base_url self1 ++ endpoint)%string
                  params json_data tok timeout)).
Proof.
  intros method endpoint params json_data timeout self w tok self1 w1 dt r rest
         Htok Hb Hst.
  rewrite (request_run _ _ _ _ _ _ _ _ _ _ _ _ _ Htok Hb).
  assert (Hfail : is_success r = false).
  { unfold is_success. apply andb_false_iff.
    destruct Hst; [left | right]; apply Z.leb_gt; lia. }
  cbv zeta. rewrite Hfail. reflexivity.
Qed.

(** A 502 answer with an HTML body. *)
Lemma error_status_raises_unparsed_witness :
  request "GET" "/v2/shopping/flight-offers" None None 30
          (signed_in "T1" 9000000)
          (world_at 5000 [text_reply 502 "<html>Bad Gateway</html>"]) =
    (Raise (HTTPStatusError (mkResponse 502 (NotJson "<html>Bad Gateway</html>"))),
     signed_in "T1" 9000000,
     after_call (world_at 5000 [text_reply 502 "<html>Bad Gateway</html>"])
       120000 []
       (Request "GET" "https://test.api.amadeus.com/v2/shopping/flight-offers"
                None None (VStr "T1") 30)).
Proof.
  apply (error_status_raises_unparsed "GET" "/v2/shopping/flight-offers"
           None None 30 (signed_in "T1" 9000000)
           (world_at 5000 [text_reply 502 "<html>Bad Gateway</html>"])
           (VStr "T1") (signed_in "T1" 9000000)
           (world_at 5000 [text_reply 502 "<html>Bad Gateway</html>"]) 120000
           (mkResponse 502 (NotJson "<html>Bad Gateway</html>")) []).
  - reflexivity.
  - reflexivity.
  - right. simpl. lia.
Defined.

(** C5, as stated, fails: a deletion answered with status 404 and a JSON body
    does not return that body, it raises. *)
Lemma delete_non_204_counterexample :
  let doc := VDict [("errors", VList [VDict [("code", VInt 1797)]])] in
  let w := world_at 5000 [json_reply 404 doc] in
  delete_request "/v1/booking/flight-orders/X1" 30 (signed_in "T1" 9000000) w =
    (Raise (HTTPStatusError (mkResponse 404 (Json doc))),
     signed_in "T1" 9000000,
     after_call w 120000 []
       (Delete "https://test.api.amadeus.com/v1/booking/flight-orders/X1"
               (VStr "T1") 30))
  /\ fst (fst (delete_request "/v1/booking/flight-orders/X1" 30
                              (signed_in "T1" 9000000) w)) <> Ok doc.
Proof.
  split.
  - reflexivity.
  - discriminate.
Qed.

(** C5, amended.  In [delete_request], a response whose status is 2xx other
    than 204 has its body decoded as JSON and the decoded document is
    returned as it is, not wrapped ([JSONDecodeError] if the body is not
    JSON); a response whose status is outside 200..299 raises
    [HTTPStatusError] carrying the response, and nothing is decoded.  For
    every status other than 204 the outcome is the one [request] gives on the
    same response. *)
Theorem delete_non_204 :
  forall endpoint timeout self w tok self1 w1 dt r rest,
    _get_token_sync self w = (Ok tok, self1, w1) ->
    backend w1 = Responds dt r :: rest ->
    status_code r <> 204 ->
    let w2 := after_call w1 dt rest
                (Delete (base_url self1 ++ endpoint)%string tok timeout) in
    (200 <= status_code r <= 299 ->
     forall doc, content r = Json doc ->
       delete_request endpoint timeout self w =
         (Ok doc, self1, emit (JsonDecode (Json doc)) w2))
    /\
    (200 <= status_code r <= 299 ->
     forall text, content r = NotJson text ->
       delete_request endpoint timeout self w =
         (Raise JSONDecodeError, self1, emit (JsonDecode (NotJson text)) w2))
    /\
    (status_code r < 200 \/ 299 < status_code r ->
     delete_request endpoint timeout self w = (Raise (HTTPStatusError r), self1, w2))
    /\
    (forall method params json_data,
       fst (fst (delete_request endpoint timeout self w)) =
       fst (fst (request method endpoint params json_data timeout self w))).
Proof.
  intros endpoint timeout self w tok self1 w1 dt r rest Htok Hb H204 w2.
  apply Z.eqb_neq in H204.
  assert (Hrun := delete_request_run endpoint timeout _ _ _ _ _ _ _ _ Htok Hb).
  cbv zeta in Hrun. rewrite H204 in Hrun. fold w2 in Hrun.
  assert (Hin : 200 <= status_code r <= 299 -> is_success r = true).
  { intros [Hlo Hhi]. unfold is_success.
    apply andb_true_intro. split; apply Z.leb_le; assumption. }
  assert (Hout : status_code r < 200 \/ 299 < status_code r -> is_success r = false).
  { intros Hst. unfold is_success. apply andb_false_iff.
    destruct Hst; [left | right]; apply Z.leb_gt; lia. }
  repeat split.
  - intros Hst doc Hdoc. rewrite Hrun, (Hin Hst).
    unfold response_json. rewrite Hdoc. reflexivity.
  - intros Hst text Htext. rewrite Hrun, (Hin Hst).
    unfold response_json. rewrite Htext. reflexivity.
  - intros Hst. rewrite Hrun, (Hout Hst). reflexivity.
  - intros method params json_data.
    rewrite Hrun.
    rewrite (request_run method endpoint params json_data timeout
               _ _ _ _ _ _ _ _ Htok Hb).
    cbv zeta. rewrite H204.
    destruct (is_success r); [|reflexivity].
    unfold response_json. destruct (content r); reflexivity.
Qed.

(** A deletion answered with status 200 and a JSON document. *)
Lemma delete_non_204_witness :
  let r := mkResponse 200 (Json (VDict [("data", VDict [("id", VStr "X1")])])) in
  let w := world_at 5000 [Responds 120000 r] in
  let w2 := after_call w 120000 []
              (Delete "https://test.api.amadeus.com/v1/booking/flight-orders/X1"
                      (VStr "T1") 30) in
  (200 <= status_code r <= 299 ->
   forall doc, content r = Json doc ->
     delete_request "/v1/booking/flight-orders/X1" 30 (signed_in "T1" 9000000) w =
       (Ok doc, signed_in "T1" 9000000, emit (JsonDecode (Json doc)) w2))
  /\
  (200 <= status_code r <= 299 ->
   forall text, content r = NotJson text ->
     delete_request "/v1/booking/flight-orders/X1" 30 (signed_in "T1" 9000000) w =
       (Raise JSONDecodeError, signed_in "T1" 9000000,
        emit (JsonDecode (NotJson text)) w2))
  /\
  (status_code r < 200 \/ 299 < status_code r ->
   delete_request "/v1/booking/flight-orders/X1" 30 (signed_in "T1" 9000000) w =
     (Raise (HTTPStatusError r), signed_in "T1" 9000000, w2))
  /\
  (forall method params json_data,
     fst (fst (delete_request "/v1/booking/flight-orders/X1" 30
                              (signed_in "T1" 9000000) w)) =
     fst (fst (request method "/v1/booking/flight-orders/X1" params json_data 30
                       (signed_in "T1" 9000000) w))).
Proof.
  intros r w w2.
  apply (delete_non_204 "/v1/booking/flight-orders/X1" 30
           (signed_in "T1" 9000000) w (VStr "T1") (signed_in "T1" 9000000) w
           120000 r []).
  - reflexivity.
  - reflexivity.
  - simpl. lia.
Defined.

(** ** The expiry of the token a request carries *)

(** Every [request] sends its HTTP call with the token [_get_token_sync]
    handed out, whatever the service then does. *)
Lemma request_sends_bearer :
  forall method endpoint params json_data timeout self w tok self1 w1,
    _get_token_sync self w = (Ok tok, self1, w1) ->
    exists outcome w2 later,
      request method endpoint params json_data timeout self w = (outcome, self1, w2) /\
      log w2 = log w1 ++ Request method (base_url self1 ++ endpoint)%string
                                 params json_data tok timeout :: later.
Proof.
  intros method endpoint params json_data timeout self w tok self1 w1 Htok.
  destruct (backend w1) as [|[dt r|dt] rest] eqn:Hb.
  - exists (Raise TransportError). eexists. exists [].
    unfold request, bind at 1. rewrite Htok.
    unfold bind, get_self, http_call. rewrite Hb. split; reflexivity.
  - rewrite (request_run _ _ _ _ _ _ _ _ _ _ _ _ _ Htok Hb). cbv zeta.
    destruct (is_success r).
    + destruct (status_code r =? 204).
      * eexists _, _, []. split; reflexivity.
      * unfold response_json.
        destruct (content r) as [text|doc].
        -- eexists _, _, [JsonDecode (NotJson text)]. split; [reflexivity|].
           unfold emit, after_call. cbn [log]. rewrite <- app_assoc. reflexivity.
        -- eexists _, _, [JsonDecode (Json doc)]. split; [reflexivity|].
           unfold emit, after_call. cbn [log]. rewrite <- app_assoc. reflexivity.
    + eexists _, _, []. split; reflexivity.
  - exists (Raise TransportError). eexists. exists [].
    unfold request, bind at 1. rewrite Htok.
    unfold bind, get_self, http_call. rewrite Hb. split; reflexivity.
Qed.

(** C6, as stated, fails: a provider that states a lifetime of 60 seconds
    makes the client store the time of receipt as expiry, and the request
    goes out, at that very time, with the token just received. *)
Lemma bearer_expiry_counterexample :
  let w := world_at 5000 [token_reply "T1" 60; json_reply 200 (VDict [])] in
  let self1 := signed_in "T1" 255000 in
  let w1 := mkWorld 255000 [json_reply 200 (VDict [])]
              [TokenPost "https://test.api.amadeus.com/v1/security/oauth2/token"
                         "key" "secret";
               JsonDecode (Json (VDict [("access_token", VStr "T1");
                                        ("expires_in", VInt 60)]))] in
  _get_token_sync test_client w = (Ok (VStr "T1"), self1, w1)
  /\ (exists w2,
        request "GET" "/v1/reference-data/locations" None None 30 test_client w =
          (Ok (VDict []), self1, w2)
        /\ log w2 = log w1 ++ [Request "GET"
                                 "https://test.api.amadeus.com/v1/reference-data/locations"
                                 None None (VStr "T1") 30;
                               JsonDecode (Json (VDict []))])
  /\ _token_expiry self1 = Some (now w1)
  /\ ~ (exists expiry, _token_expiry self1 = Some expiry /\ now w1 < expiry).
Proof.
  cbv zeta. split; [reflexivity|]. split.
  - eexists. split; reflexivity.
  - split; [reflexivity|].
    intros (expiry & Hexp & Hlt). simpl in Hexp, Hlt.
    inversion Hexp; subst. lia.
Qed.

(** C6, amended.  The token a request carries is the one in the client's
    token slot, and that slot has an expiry.  When the token came from the
    cache, the expiry is strictly after the time of the call.  When it was
    fetched for this request, the expiry is the time of receipt, which is
    the time of the call, plus the lifetime the provider stated (1700 when it
    stated none) minus 60 seconds; it is strictly after the time of the call
    exactly when that lifetime exceeds 60 seconds. *)
Theorem bearer_expiry_margin :
  forall method endpoint params json_data timeout self w tok self1 w1,
    _get_token_sync self w = (Ok tok, self1, w1) ->
    (exists outcome w2 later,
       request method endpoint params json_data timeout self w = (outcome, self1, w2) /\
       log w2 = log w1 ++ Request method (base_url self1 ++ endpoint)%string
                                  params json_data tok timeout :: later)
    /\ _access_token self1 = tok
    /\ exists expiry,
         _token_expiry self1 = Some expiry /\
         ((self1 = self /\ w1 = w /\ now w1 < expiry)
          \/
          (exists dt r rest data stated expires_in,
             backend w = Responds dt r :: rest /\
             content r = Json data /\
             py_get data "expires_in" (VInt 1700) = Ok stated /\
             py_sub_int stated 0 = Ok expires_in /\
             now w1 = now w + dt /\
             expiry = now w1 + timedelta_seconds (expires_in - 60) /\
             (60 < expires_in <-> now w1 < expiry))).
Proof.
  intros method endpoint params json_data timeout self w tok self1 w1 Htok.
  split; [eapply request_sends_bearer; eassumption|].
  split; [eapply get_token_returns_slot; eassumption|].
  destruct (get_token_inv _ _ _ _ _ Htok) as [(Hfresh & -> & -> & _) | (_ & H)].
  - unfold token_is_fresh in Hfresh.
    apply andb_true_iff in Hfresh. destruct Hfresh as [_ Hfresh].
    destruct (_token_expiry self) as [expiry|]; [|discriminate].
    exists expiry. split; [reflexivity|]. left.
    apply Z.ltb_lt in Hfresh. auto.
  - destruct H as (dt & r & rest & data & v & lifetime
                   & Hb & _ & Hc & _ & Hv & Hl & -> & ->).
    eexists. split; [reflexivity|]. right.
    exists dt, r, rest, data, v, (lifetime + 60).
    cbn [now]. unfold timedelta_seconds.
    repeat split; auto; try lia.
    destruct v; simpl in Hl |- *; try discriminate;
      inversion Hl; subst; f_equal; lia.
Qed.

(** A first request: the token is fetched, with a stated lifetime of 1799 seconds. *)
Lemma bearer_expiry_margin_witness :
  let w := world_at 5000 [token_reply "T1" 1799; json_reply 200 (VDict [])] in
  let self1 := signed_in "T1" 1739255000 in
  let w1 := mkWorld 255000 [json_reply 200 (VDict [])]
              [TokenPost "https://test.api.amadeus.com/v1/security/oauth2/token"
                         "key" "secret";
               JsonDecode (Json (VDict [("access_token", VStr "T1");
                                        ("expires_in", VInt 1799)]))] in
  (exists outcome w2 later,
     request "GET" "/v1/reference-data/locations" None None 30 test_client w =
       (outcome, self1, w2) /\
     log w2 = log w1 ++ Request "GET"
                          "https://test.api.amadeus.com/v1/reference-data/locations"
                          None None (VStr "T1") 30 :: later)
  /\ _access_token self1 = VStr "T1"
  /\ exists expiry,
       _token_expiry self1 = Some expiry /\
       ((self1 = test_client /\ w1 = w /\ now w1 < expiry)
        \/
        (exists dt r rest data stated expires_in,
           backend w = Responds dt r :: rest /\
           content r = Json data /\
           py_get data "expires_in" (VInt 1700) = Ok stated /\
           py_sub_int stated 0 = Ok expires_in /\
           now w1 = now w + dt /\
           expiry = now w1 + timedelta_seconds (expires_in - 60) /\
           (60 < expires_in <-> now w1 < expiry))).
Proof.
  intros w self1 w1.
  apply (bearer_expiry_margin "GET" "/v1/reference-data/locations" None None 30
           test_client w (VStr "T1") self1 w1).
  reflexivity.
Defined.

(** ** Failures of the request in the operations *)

Lemma bind_propagates :
  forall (req : M value) (k : value -> M value), propagates req (bind req k).
Proof.
  intros req k self w e self' w' H. unfold bind. rewrite H. reflexivity.
Qed.

(** C7.  When the request of [get_travel_recommendations] raises, whatever
    the exception, the operation returns a list with the single entry
    [{"message": "Recommendations not available: ..."}], whose message
    contains "not available", and raises nothing.  The other operations
    embedded here have no handler: a failure of their request (of either
    request, for [search_hotels]; of the deletion, for the two
    cancellations) comes out of the operation unchanged.  So does the
    failure of the request in any operation that is a request followed by
    shaping code, whatever that code is. *)
Theorem only_recommendations_swallow :
  (forall str_of_exn city_code category self w e self' w',
     request "GET" "/v1/reference-data/locations/pois"
             (Some (VDict [("cityCode", VStr (upper city_code));
                           ("category", VStr category)]))
             None default_timeout self w = (Raise e, self', w') ->
     exists message,
       get_travel_recommendations str_of_exn city_code category self w =
         (Ok (VList [VDict [("message", VStr message)]]), self', w') /\
       message = ("Recommendations not available: " ++ str_of_exn e)%string /\
       contains "not available" message)
  /\
  (forall origin_cities traveler_interest,
     propagates
       (request "GET" "/v1/reference-data/recommended-locations"
                (Some (VDict [("cityCodes", VStr (upper origin_cities));
                              ("travelerCountryCode", VStr "US")]))
                None default_timeout)
       (get_recommended_destinations origin_cities traveler_interest))
  /\
  (forall document_content document_type,
     propagates
       (request "POST" "/v3/travel/trip-parser/pnr-documents" None
                (Some (VDict [("data", VDict [("type", VStr "trip-parser-job");
                                              ("content", VStr document_content)])]))
                default_timeout)
       (parse_trip_document document_content document_type))
  /\
  (forall document_id,
     propagates
       (request "GET" ("/v3/travel/trip-parser/pnr-documents/" ++ document_id)%string
                None None default_timeout)
       (get_parsed_trip document_id))
  /\
  (forall origin max_price departure_date,
     exists params,
       propagates
         (request "GET" "/v1/shopping/flight-destinations" (Some (VDict params))
                  None default_timeout)
         (search_flight_inspiration origin max_price departure_date))
  /\
  (forall (F : PyFloat) city_code check_in check_out adults rooms radius max_results,
     propagates
       (request "GET" "/v1/reference-data/locations/hotels/by-city"
                (Some (VDict [("cityCode", VStr (upper city_code));
                              ("radius", VInt radius);
                              ("radiusUnit", VStr "KM")]))
                None default_timeout)
       (search_hotels city_code check_in check_out adults rooms radius max_results))
  /\
  (forall (F : PyFloat) city_code check_in check_out adults rooms radius max_results
          self w hotels_data self1 w1 first_id more_ids joined e self2 w2,
     request "GET" "/v1/reference-data/locations/hotels/by-city"
             (Some (VDict [("cityCode", VStr (upper city_code));
                           ("radius", VInt radius);
                           ("radiusUnit", VStr "KM")]))
             None default_timeout self w = (Ok hotels_data, self1, w1) ->
     hotel_ids_of hotels_data max_results = Ok (first_id :: more_ids) ->
     py_join "," (first_id :: more_ids) = Ok joined ->
     request "GET" "/v3/shopping/hotel-offers"
             (Some (VDict [("hotelIds", VStr joined);
                           ("checkInDate", VStr check_in);
                           ("checkOutDate", VStr check_out);
                           ("adults", VInt adults);
                           ("roomQuantity", VInt rooms);
                           ("currency", VStr "USD")]))
             None default_timeout self1 w1 = (Raise e, self2, w2) ->
     search_hotels city_code check_in check_out adults rooms radius max_results self w
     = (Raise e, self2, w2))
  /\
  (forall order_id,
     propagates
       (delete_request ("/v1/booking/flight-orders/" ++ order_id)%string default_timeout)
       (cancel_flight_order order_id))
  /\
  (forall order_id,
     propagates
       (delete_request ("/v1/booking/transfer-orders/" ++ order_id)%string default_timeout)
       (cancel_transfer order_id))
  /\
  (forall method endpoint params json_data timeout (shaping : value -> M value),
     propagates (request method endpoint params json_data timeout)
                (data <- request method endpoint params json_data timeout ;;
                 shaping data)).
Proof.
  split; [|repeat split].
  - intros str_of_exn city_code category self w e self' w' Hreq.
    eexists. split; [|split; [reflexivity|]].
    + unfold get_travel_recommendations, bind, attempt. rewrite Hreq. reflexivity.
    + exists "Recommendations ", (": " ++ str_of_exn e)%string. reflexivity.
  - intros. apply bind_propagates.
  - intros. apply bind_propagates.
  - intros. apply bind_propagates.
  - intros origin max_price departure_date. eexists. apply bind_propagates.
  - intros. apply bind_propagates.
  - intros F city_code check_in check_out adults rooms radius max_results
           self w hotels_data self1 w1 first_id more_ids joined e self2 w2
           Hfirst Hids Hjoin Hsecond.
    unfold search_hotels, bind at 1. rewrite Hfirst.
    unfold bind at 1, lift at 1. rewrite Hids.
    unfold bind at 1, lift at 1. rewrite Hjoin.
    unfold bind. rewrite Hsecond. reflexivity.
  - intros. apply bind_propagates.
  - intros. apply bind_propagates.
  - intros. apply bind_propagates.
Qed.

(** The recommendations request answered with status 502. *)
Lemma only_recommendations_swallow_witness :
  exists message,
    get_travel_recommendations (fun _ => "502 Bad Gateway") "par" "SIGHTS"
      (signed_in "T1" 9000000) (world_at 5000 [text_reply 502 "<html></html>"]) =
      (Ok (VList [VDict [("message", VStr message)]]),
       signed_in "T1" 9000000,
       after_call (world_at 5000 [text_reply 502 "<html></html>"]) 120000 []
         (Request "GET" "https://test.api.amadeus.com/v1/reference-data/locations/pois"
                  (Some (VDict [("cityCode", VStr "PAR"); ("category", VStr "SIGHTS")]))
                  None (VStr "T1") 30)) /\
    message = "Recommendations not available: 502 Bad Gateway" /\
    contains "not available" message.
Proof.
  apply (proj1 only_recommendations_swallow (fun _ => "502 Bad Gateway") "par" "SIGHTS"
           (signed_in "T1" 9000000) (world_at 5000 [text_reply 502 "<html></html>"])
           (HTTPStatusError (mkResponse 502 (NotJson "<html></html>")))).
  reflexivity.
Defined.

(** ** Truncation of result lists *)

Lemma mapM_res_length :
  forall (A B : Type) (f : A -> result B) (l : list A) (l' : list B),
    mapM_res f l = Ok l' -> List.length l' = List.length l.
Proof.
  intros A B f l. induction l as [|x rest IH]; intros l' H; simpl in H.
  - inversion H. reflexivity.
  - destruct (f x) as [y|]; [|discriminate]. simpl in H.
    destruct (mapM_res f rest) as [ys|]; [|discriminate]. simpl in H.
    inversion H. simpl. f_equal. apply IH. reflexivity.
Qed.

Lemma slice_to_bound :
  forall (A : Type) (n : Z) (l : list A),
    0 <= n -> (List.length (slice_to n l) <= Z.to_nat n)%nat.
Proof.
  intros A n l Hn. unfold slice_to.
  destruct (0 <=? n) eqn:H; [|apply Z.leb_gt in H; lia].
  apply firstn_le_length.
Qed.

Lemma slice_to_length :
  forall (A : Type) (n : Z) (l : list A),
    0 <= n -> List.length (slice_to n l) = Nat.min (Z.to_nat n) (List.length l).
Proof.
  intros A n l Hn. unfold slice_to.
  destruct (0 <=? n) eqn:H; [|apply Z.leb_gt in H; lia].
  apply length_firstn.
Qed.

(** A loop over [v[:n]] visits at most [n] items. *)
Lemma sliced_items_bound :
  forall n v first items,
    0 <= n ->
    py_slice_to n v = Ok first -> py_iter first = Ok items ->
    (List.length items <= Z.to_nat n)%nat.
Proof.
  intros n v first items Hn Hslice Hiter.
  destruct v; simpl in Hslice; try discriminate; inversion Hslice; subst;
    simpl in Hiter; inversion Hiter; subst.
  - rewrite length_map, list_ascii_of_string_of_list_ascii.
    apply slice_to_bound. exact Hn.
  - apply slice_to_bound. exact Hn.
Qed.

(** The loop shared by the list-returning operations: at most [n] entries
    come out of it. *)
Lemma truncated_loop_bound :
  forall n (shape : value -> result value) data v,
    0 <= n ->
    (all <~ py_get data "data" (VList []) ;;
     first <~ py_slice_to n all ;;
     items <~ py_iter first ;;
     result <~ mapM_res shape items ;;
     Ok (VList result))%res = Ok v ->
    exists l, v = VList l /\ (List.length l <= Z.to_nat n)%nat.
Proof.
  intros n shape data v Hn H.
  destruct (py_get data "data" (VList [])) as [all|]; [|discriminate].
  cbn [rbind] in H.
  destruct (py_slice_to n all) as [first|] eqn:Hslice; [|discriminate].
  cbn [rbind] in H.
  destruct (py_iter first) as [items|] eqn:Hiter; [|discriminate].
  cbn [rbind] in H.
  destruct (mapM_res shape items) as [result|] eqn:Hmap; [|discriminate].
  cbn [rbind] in H. inversion H; subst.
  exists result. split; [reflexivity|].
  rewrite (mapM_res_length _ _ _ _ _ Hmap).
  eapply sliced_items_bound; eassumption.
Qed.

Lemma mapM_res_all_ok :
  forall (shape : value -> result value) (good : value -> bool) items,
    (forall x, good x = true -> exists y, shape x = Ok y) ->
    forallb good items = true ->
    exists result, mapM_res shape items = Ok result.
Proof.
  intros shape good items Hshape. induction items as [|x rest IH]; intros Hall.
  - exists []. reflexivity.
  - simpl in Hall. apply andb_true_iff in Hall. destruct Hall as [Hx Hrest].
    destruct (Hshape x Hx) as [y Hy]. destruct (IH Hrest) as [ys Hys].
    exists (y :: ys). simpl. rewrite Hy. simpl. rewrite Hys. reflexivity.
Qed.

Lemma forallb_firstn :
  forall (A : Type) (p : A -> bool) (k : nat) (l : list A),
    forallb p l = true -> forallb p (firstn k l) = true.
Proof.
  intros A p k. induction k as [|k IH]; intros l H; [reflexivity|].
  destruct l as [|x rest]; [reflexivity|].
  simpl in *. apply andb_true_iff in H. destruct H as [Hx Hrest].
  rewrite Hx. simpl. apply IH. exact Hrest.
Qed.

(** On a payload whose [data] is a list of well-formed items the loop returns
    the shapes of the first [n] of them. *)
Lemma truncated_loop_total :
  forall n (shape : value -> result value) (good : value -> bool) entries all,
    0 <= n ->
    (forall x, good x = true -> exists y, shape x = Ok y) ->
    assoc "data" entries = Some (VList all) ->
    forallb good all = true ->
    exists l,
      (all' <~ py_get (VDict entries) "data" (VList []) ;;
       first <~ py_slice_to n all' ;;
       items <~ py_iter first ;;
       result <~ mapM_res shape items ;;
       Ok (VList result))%res = Ok (VList l) /\
      List.length l = Nat.min (Z.to_nat n) (List.length all).
Proof.
  intros n shape good entries all Hn Hshape Hdata Hall.
  cbn [py_get]. rewrite Hdata. cbn [rbind py_slice_to py_iter].
  assert (Hgood : forallb good (slice_to n all) = true).
  { unfold slice_to. destruct (0 <=? n); apply forallb_firstn; exact Hall. }
  destruct (mapM_res_all_ok shape good _ Hshape Hgood) as [result Hres].
  exists result. rewrite Hres. split; [reflexivity|].
  rewrite (mapM_res_length _ _ _ _ _ Hres).
  apply slice_to_length. exact Hn.
Qed.

Lemma shape_poi_total :
  forall x, is_dict x = true -> exists y, shape_poi x = Ok y.
Proof.
  intros x Hx. destruct x; try discriminate. eexists. reflexivity.
Qed.

Lemma shape_inspiration_total :
  forall x, inspiration_item x = true -> exists y, shape_inspiration x = Ok y.
Proof.
  intros x Hx. destruct x as [| | | | |entries]; try discriminate.
  unfold inspiration_item, dict_or_absent in Hx.
  unfold shape_inspiration, dget. cbn [py_get rbind].
  destruct (assoc "price" entries) as [[| | | | |price]|]; try discriminate;
    eexists; reflexivity.
Qed.

(** C10.  Whatever the service sends, a list returned by
    [get_travel_recommendations] has at most 15 entries and a list returned
    by [search_flight_inspiration] has at most 20; both operations return
    nothing but lists.  On a payload whose [data] is a list of objects the
    operations do return: the shapes of the first 15, respectively 20, of
    them. *)
Theorem result_size_limits :
  (forall str_of_exn city_code category self w v self' w',
     get_travel_recommendations str_of_exn city_code category self w = (Ok v, self', w') ->
     exists l, v = VList l /\ (List.length l <= 15)%nat)
  /\
  (forall origin max_price departure_date self w v self' w',
     search_flight_inspiration origin max_price departure_date self w = (Ok v, self', w') ->
     exists l, v = VList l /\ (List.length l <= 20)%nat)
  /\
  (forall str_of_exn city_code category self w entries pois self' w',
     request "GET" "/v1/reference-data/locations/pois"
             (Some (VDict [("cityCode", VStr (upper city_code));
                           ("category", VStr category)]))
             None default_timeout self w = (Ok (VDict entries), self', w') ->
     assoc "data" entries = Some (VList pois) ->
     forallb is_dict pois = true ->
     exists l,
       get_travel_recommendations str_of_exn city_code category self w =
         (Ok (VList l), self', w') /\
       List.length l = Nat.min 15 (List.length pois))
  /\
  (forall origin self w entries dests self' w',
     request "GET" "/v1/shopping/flight-destinations"
             (Some (VDict [("origin", VStr (upper origin))]))
             None default_timeout self w = (Ok (VDict entries), self', w') ->
     assoc "data" entries = Some (VList dests) ->
     forallb inspiration_item dests = true ->
     exists l,
       search_flight_inspiration origin None None self w = (Ok (VList l), self', w') /\
       List.length l = Nat.min 20 (List.length dests)).
Proof.
  repeat split.
  - intros str_of_exn city_code category self w v self' w' H.
    unfold get_travel_recommendations, bind, attempt in H.
    destruct (request _ _ _ _ _ self w) as [[[data|e] self1] w1].
    + unfold lift in H. inversion H as [[Hv Hs Hw]].
      apply (truncated_loop_bound 15 shape_poi data v); [lia | exact Hv].
    + unfold ret in H. inversion H; subst.
      eexists. split; [reflexivity|]. simpl. lia.
  - intros origin max_price departure_date self w v self' w' H.
    unfold search_flight_inspiration, bind in H.
    destruct (request _ _ _ _ _ self w) as [[[data|e] self1] w1]; [|discriminate].
    unfold lift in H. inversion H as [[Hv Hs Hw]].
    apply (truncated_loop_bound 20 shape_inspiration data v); [lia | exact Hv].
  - intros str_of_exn city_code category self w entries pois self' w' Hreq Hdata Hall.
    destruct (truncated_loop_total 15 shape_poi is_dict entries pois
                ltac:(lia) shape_poi_total Hdata Hall) as (l & Hl & Hlen).
    exists l. split; [|exact Hlen].
    unfold get_travel_recommendations, bind, attempt. rewrite Hreq.
    unfold lift. rewrite Hl. reflexivity.
  - intros origin self w entries dests self' w' Hreq Hdata Hall.
    destruct (truncated_loop_total 20 shape_inspiration inspiration_item entries dests
                ltac:(lia) shape_inspiration_total Hdata Hall) as (l & Hl & Hlen).
    exists l. split; [|exact Hlen].
    unfold search_flight_inspiration, bind. cbn [app]. rewrite Hreq.
    unfold lift. rewrite Hl. reflexivity.
Qed.

(** Seventeen points of interest come back; fifteen are returned. *)
Lemma result_size_limits_witness :
  exists w' l,
    get_travel_recommendations (fun _ => "unused") "par" "SIGHTS"
      (signed_in "T1" 9000000)
      (world_at 5000
         [json_reply 200
            (VDict [("data", VList (repeat (VDict [("name", VStr "Louvre")]) 17))])]) =
      (Ok (VList l), signed_in "T1" 9000000, w') /\
    List.length l = Nat.min 15 (List.length (repeat (VDict [("name", VStr "Louvre")]) 17)).
Proof.
  eexists.
  apply (proj1 (proj2 (proj2 result_size_limits)) (fun _ => "unused") "par" "SIGHTS"
           (signed_in "T1" 9000000)
           (world_at 5000
              [json_reply 200
                 (VDict [("data", VList (repeat (VDict [("name", VStr "Louvre")]) 17))])])
           [("data", VList (repeat (VDict [("name", VStr "Louvre")]) 17))]
           (repeat (VDict [("name", VStr "Louvre")]) 17)).
  - reflexivity.
  - reflexivity.
  - reflexivity.
Defined.

(** ** Minimum and sorting by a float key *)

Section KeyOrder.
Context {F : PyFloat} {O : PyFloatOrder F}.
Variable key : value -> result pyfloat.













End KeyOrder.

(** ** Hotel search *)

Section HotelSearch.
Context {F : PyFloat} {O : PyFloatOrder F}.






(** [search_hotels] when both requests return. *)
Lemma search_hotels_run :
  forall city_code check_in check_out adults rooms radius max_results
         self w hotels_data self1 w1 first_id more_ids joined offers_data self2 w2,
    request "GET" "/v1/reference-data/locations/hotels/by-city"
            (Some (VDict [("cityCode", VStr (upper city_code));
                          ("radius", VInt radius);
                          ("radiusUnit", VStr "KM")]))
            None default_timeout self w = (Ok hotels_data, self1, w1) ->
    hotel_ids_of hotels_data max_results = Ok (first_id :: more_ids) ->
    py_join "," (first_id :: more_ids) = Ok joined ->
    request "GET" "/v3/shopping/hotel-offers"
            (Some (VDict [("hotelIds", VStr joined);
                          ("checkInDate", VStr check_in);
                          ("checkOutDate", VStr check_out);
                          ("adults", VInt adults);
                          ("roomQuantity", VInt rooms);
                          ("currency", VStr "USD")]))
            None default_timeout self1 w1 = (Ok offers_data, self2, w2) ->
    search_hotels city_code check_in check_out adults rooms radius max_results self w
    = (shape_hotel_offers offers_data, self2, w2).
Proof.
  intros city_code check_in check_out adults rooms radius max_results
         self w hotels_data self1 w1 first_id more_ids joined offers_data self2 w2
         Hfirst Hids Hjoin Hsecond.
  unfold search_hotels, bind at 1. rewrite Hfirst.
  unfold bind at 1, lift at 1. rewrite Hids.
  unfold bind at 1, lift at 1. rewrite Hjoin.
  unfold bind. rewrite Hsecond. reflexivity.
Qed.

(** A hotel without offers leaves no trace in the loop. *)
Lemma hotel_loop_skips :
  forall before fields after,
    assoc "offers" fields = Some (VList []) \/ assoc "offers" fields = None ->
    hotel_loop (before ++ VDict fields :: after) = hotel_loop (before ++ after).
Proof.
  intros before fields after Hempty.
  induction before as [|hotel before IH].
  - cbn [app hotel_loop py_get rbind].
    destruct Hempty as [-> | ->]; reflexivity.
  - cbn [app hotel_loop]. rewrite IH. reflexivity.
Qed.

End HotelSearch.


(** Exact decimals are ordered as [PyFloatOrder] asks. *)
Lemma DecimalFloat_order : PyFloatOrder DecimalFloat.
Proof.
  split; simpl.
  - intros a b Hlt. apply negb_true_iff in Hlt. apply negb_false_iff.
    apply Qle_bool_iff. apply Qlt_le_weak. apply Qnot_le_lt.
    intros Hle. apply Qle_bool_iff in Hle. congruence.
  - intros a b c Hab Hbc.
    apply negb_false_iff in Hab. apply negb_false_iff in Hbc.
    apply negb_false_iff. apply Qle_bool_iff.
    apply Qle_bool_iff in Hab. apply Qle_bool_iff in Hbc.
    eapply Qle_trans; eassumption.
Qed.

(** C9.  When the first request of [search_hotels] yields no hotel
    identifier, as it does on an empty or missing [data] list, the operation
    returns the empty list and ends in the state the first request left: the
    offers request is not made.  A hotel of the offers payload whose offers
    list is empty or missing is left out: the outcome is the one of the
    payload without that hotel. *)
Theorem no_hotels_no_offers_request :
  (forall (F : PyFloat) city_code check_in check_out adults rooms radius max_results
          self w hotels_data self1 w1,
     request "GET" "/v1/reference-data/locations/hotels/by-city"
             (Some (VDict [("cityCode", VStr (upper city_code));
                           ("radius", VInt radius);
                           ("radiusUnit", VStr "KM")]))
             None default_timeout self w = (Ok hotels_data, self1, w1) ->
     hotel_ids_of hotels_data max_results = Ok [] ->
     search_hotels city_code check_in check_out adults rooms radius max_results self w
     = (Ok (VList []), self1, w1))
  /\
  (forall fields max_results,
     assoc "data" fields = Some (VList []) \/ assoc "data" fields = None ->
     hotel_ids_of (VDict fields) max_results = Ok [])
  /\
  (forall (F : PyFloat) city_code check_in check_out adults rooms radius max_results
          self w hotels_data self1 w1 first_id more_ids joined
          before fields after self2 w2,
     request "GET" "/v1/reference-data/locations/hotels/by-city"
             (Some (VDict [("cityCode", VStr (upper city_code));
                           ("radius", VInt radius);
                           ("radiusUnit", VStr "KM")]))
             None default_timeout self w = (Ok hotels_data, self1, w1) ->
     hotel_ids_of hotels_data max_results = Ok (first_id :: more_ids) ->
     py_join "," (first_id :: more_ids) = Ok joined ->
     request "GET" "/v3/shopping/hotel-offers"
             (Some (VDict [("hotelIds", VStr joined);
                           ("checkInDate", VStr check_in);
                           ("checkOutDate", VStr check_out);
                           ("adults", VInt adults);
                           ("roomQuantity", VInt rooms);
                           ("currency", VStr "USD")]))
             None default_timeout self1 w1 =
       (Ok (VDict [("data", VList (before ++ VDict fields :: after))]), self2, w2) ->
     assoc "offers" fields = Some (VList []) \/ assoc "offers" fields = None ->
     search_hotels city_code check_in check_out adults rooms radius max_results self w
     = (shape_hotel_offers (VDict [("data", VList (before ++ after))]), self2, w2)).
Proof.
  split; [|split].
  - intros F city_code check_in check_out adults rooms radius max_results
           self w hotels_data self1 w1 Hfirst Hids.
    unfold search_hotels, bind at 1. rewrite Hfirst.
    unfold bind, lift. rewrite Hids. reflexivity.
  - intros fields max_results Hdata.
    unfold hotel_ids_of. cbn [py_get rbind].
    assert (Hempty : forall n, slice_to n (@nil value) = []).
    { intros n. unfold slice_to. destruct (0 <=? n); apply firstn_nil. }
    destruct Hdata as [-> | ->]; cbn [py_slice_to rbind py_iter];
      rewrite Hempty; reflexivity.
  - intros F city_code check_in check_out adults rooms radius max_results
           self w hotels_data self1 w1 first_id more_ids joined
           before fields after self2 w2 Hfirst Hids Hjoin Hsecond Hempty.
    rewrite (search_hotels_run _ _ _ _ _ _ _ _ _ _ _ _ _ _ _ _ _ _
               Hfirst Hids Hjoin Hsecond).
    f_equal. f_equal. unfold shape_hotel_offers.
    cbn [py_get assoc String.eqb Ascii.eqb Bool.eqb rbind py_iter].
    rewrite hotel_loop_skips by exact Hempty. reflexivity.
Qed.

(** No hotel in the city: the reply scripted for the offers request is still there at the end. *)
Lemma no_hotels_no_offers_request_witness :
  search_hotels (F := DecimalFloat) "xxx" "2025-06-01" "2025-06-05" 1 1 5 10
    (signed_in "T1" 9000000)
    (world_at 5000 [json_reply 200 (VDict [("data", VList [])]); two_hotels_reply])
  = (Ok (VList []), signed_in "T1" 9000000,
     mkWorld 125000 [two_hotels_reply]
       [Request "GET"
          "https://test.api.amadeus.com/v1/reference-data/locations/hotels/by-city"
          (Some (VDict [("cityCode", VStr "XXX"); ("radius", VInt 5);
                        ("radiusUnit", VStr "KM")]))
          None (VStr "T1") 30;
        JsonDecode (Json (VDict [("data", VList [])]))]).
Proof.
  apply (proj1 no_hotels_no_offers_request DecimalFloat
           "xxx" "2025-06-01" "2025-06-05" 1 1 5 10
           (signed_in "T1" 9000000)
           (world_at 5000 [json_reply 200 (VDict [("data", VList [])]);
                           two_hotels_reply])
           (VDict [("data", VList [])])).
  - reflexivity.
  - reflexivity.
Defined.




(** * Further properties of the client *)


(** What a failed [_get_token_sync] did: it was a refresh; it sent the one
    token request; the credentials and the stored expiry are as before; the
    token slot is as before unless the failure is the [TypeError] of a
    lifetime that is not a number, in which case the slot holds the new
    token. *)
Lemma get_token_failure :
  forall self w e self' w',
    _get_token_sync self w = (Raise e, self', w') ->
    token_is_fresh self (now w) = false /\
    client_id self' = client_id self /\
    client_secret self' = client_secret self /\
    base_url self' = base_url self /\
    _token_expiry self' = _token_expiry self /\
    (exists decodes,
       log w' = log w ++ TokenPost (token_url self) (client_id self) (client_secret self)
                         :: decodes /\
       Forall (fun ev => is_network_call ev = false) decodes) /\
    (_access_token self' = _access_token self
     \/
     (e = TypeError /\
      exists dt r rest data stated,
        backend w = Responds dt r :: rest /\
        content r = Json data /\
        py_subscript data "access_token" = Ok (_access_token self') /\
        py_get data "expires_in" (VInt 1700) = Ok stated /\
        py_sub_int stated 60 = Raise TypeError)).
Proof.
  intros self w e self' w' H.
  unfold _get_token_sync, bind, get_self, datetime_now in H.
  destruct (token_is_fresh self (now w)) eqn:Hfresh; [discriminate|].
  split; [reflexivity|].
  unfold http_call in H. unfold token_url.
  destruct (backend w) as [|[dt r|dt] rest] eqn:Hb.
  - unfold emit in H. inversion H; subst. cbn [log].
    repeat split; auto. exists []. split; [reflexivity | constructor].
  - unfold raise_for_status in H.
    destruct (is_success r) eqn:Hs.
    + unfold ret, response_json in H.
      destruct (content r) as [text|data] eqn:Hc.
      * unfold emit in H. inversion H; subst. cbn [log].
        repeat split; auto.
        exists [JsonDecode (NotJson text)]. rewrite <- app_assoc.
        split; [reflexivity | repeat constructor].
      * unfold lift, set_access_token, set_token_expiry, emit in H.
        destruct (py_subscript data "access_token") as [tok|] eqn:Htok.
        -- destruct (py_get data "expires_in" (VInt 1700)) as [v|] eqn:Hv.
           ++ destruct (py_sub_int v 60) as [lifetime|e'] eqn:Hl; [discriminate|].
              inversion H; subst. cbn [log client_id client_secret base_url
                                       _token_expiry _access_token].
              repeat split; auto.
              ** exists [JsonDecode (Json data)]. rewrite <- app_assoc.
                 split; [reflexivity | repeat constructor].
              ** right.
                 assert (e = TypeError) as ->
                   by (destruct v; simpl in Hl; congruence).
                 split; [reflexivity|].
                 exists dt, r, rest, data, v. repeat split; auto.
           ++ inversion H; subst. cbn [log client_id client_secret base_url
                                       _token_expiry _access_token].
              destruct data; simpl in Htok, Hv; try discriminate.
        -- inversion H; subst. cbn [log].
           repeat split; auto.
           exists [JsonDecode (Json data)]. rewrite <- app_assoc.
           split; [reflexivity | repeat constructor].
    + unfold raise in H. inversion H; subst. cbn [log].
      repeat split; auto. exists []. split; [reflexivity | constructor].
  - inversion H; subst. cbn [log].
    repeat split; auto. exists []. split; [reflexivity | constructor].
Qed.

Lemma app_cons_not_self :
  forall (A : Type) (l : list A) (x : A) (r : list A), l ++ x :: r <> l.
Proof.
  intros A l x r H. apply (f_equal (@List.length A)) in H.
  rewrite length_app in H. simpl in H. lia.
Qed.

Lemma silent_events_no_calls :
  forall evs,
    Forall (fun ev => is_network_call ev = false) evs ->
    filter is_network_call evs = [] /\ filter is_business_call evs = [].
Proof.
  induction 1 as [|ev evs Hev _ [IH1 IH2]]; [split; reflexivity|].
  simpl. rewrite Hev. destruct ev; simpl in *; try discriminate. auto.
Qed.



(** X2.  A token reply that carries a token but a lifetime that is not a
    number makes the refresh raise [TypeError] after the new token has been
    stored: the client ends with the new token and the old expiry. *)
Theorem bad_lifetime_replaces_token_only :
  forall self w dt status kv rest tok stated,
    token_is_fresh self (now w) = false ->
    backend w = Responds dt (mkResponse status (Json (VDict kv))) :: rest ->
    200 <= status <= 299 ->
    assoc "access_token" kv = Some tok ->
    assoc "expires_in" kv = Some stated ->
    py_sub_int stated 60 = Raise TypeError ->
    exists w',
      _get_token_sync self w =
        (Raise TypeError,
         mkClient (client_id self) (client_secret self) (base_url self)
                  tok (_token_expiry self),
         w').
Proof.
  intros self w dt status kv rest tok stated Hstale Hb Hst Htok Hexp Hbad.
  assert (Hok : is_success (mkResponse status (Json (VDict kv))) = true).
  { unfold is_success. simpl. apply andb_true_intro. split; apply Z.leb_le; lia. }
  eexists.
  unfold _get_token_sync, bind, get_self, datetime_now.
  rewrite Hstale. unfold http_call. rewrite Hb.
  unfold raise_for_status. rewrite Hok.
  unfold ret, response_json, lift, set_access_token, set_token_expiry.
  cbn [content py_subscript py_get]. rewrite Htok, Hexp, Hbad.
  reflexivity.
Qed.

(** The provider sends the lifetime as a string. *)
Lemma bad_lifetime_replaces_token_only_witness :
  exists w',
    _get_token_sync (signed_in "T0" 1000)
      (world_at 5000
         [json_reply 200 (VDict [("access_token", VStr "T1");
                                 ("expires_in", VStr "1799")])]) =
      (Raise TypeError, signed_in "T1" 1000, w').
Proof.
  apply (bad_lifetime_replaces_token_only (signed_in "T0" 1000)
           (world_at 5000
              [json_reply 200 (VDict [("access_token", VStr "T1");
                                      ("expires_in", VStr "1799")])])
           120000 200
           [("access_token", VStr "T1"); ("expires_in", VStr "1799")] []
           (VStr "T1") (VStr "1799")).
  - reflexivity.
  - reflexivity.
  - lia.
  - reflexivity.
  - reflexivity.
  - reflexivity.
Defined.

(** X3.  When the token cannot be obtained, [request] and [delete_request]
    raise the exception of the token manager and end where it ended: the
    business call is not sent. *)
Theorem auth_failure_sends_no_business_call :
  forall method endpoint params json_data timeout self w e self' w',
    _get_token_sync self w = (Raise e, self', w') ->
    request method endpoint params json_data timeout self w = (Raise e, self', w') /\
    delete_request endpoint timeout self w = (Raise e, self', w') /\
    filter is_business_call (log w') = filter is_business_call (log w).
Proof.
  intros method endpoint params json_data timeout self w e self' w' H.
  split; [|split].
  - unfold request, bind. rewrite H. reflexivity.
  - unfold delete_request, bind. rewrite H. reflexivity.
  - destruct (get_token_failure _ _ _ _ _ H)
      as (_ & _ & _ & _ & _ & (decodes & Hlog & Hsilent) & _).
    rewrite Hlog, filter_app. simpl.
    rewrite (proj2 (silent_events_no_calls _ Hsilent)). apply app_nil_r.
Qed.

(** The identity provider is unreachable. *)
Lemma auth_failure_sends_no_business_call_witness :
  let w := world_at 5000 [Unreachable 30000000; json_reply 200 (VDict [])] in
  let w' := mkWorld 30005000 [json_reply 200 (VDict [])]
              [TokenPost "https://test.api.amadeus.com/v1/security/oauth2/token"
                         "key" "secret"] in
  request "GET" "/v1/ping" None None 30 test_client w =
    (Raise TransportError, test_client, w') /\
  delete_request "/v1/ping" 30 test_client w = (Raise TransportError, test_client, w') /\
  filter is_business_call (log w') = filter is_business_call (log w).
Proof.
  intros w w'.
  apply (auth_failure_sends_no_business_call "GET" "/v1/ping" None None 30
           test_client w TransportError test_client w').
  reflexivity.
Defined.

(** X4.  On a 2xx response other than 204, [request] decodes the body once
    and returns the decoded document as it is; a body that is not JSON makes
    it raise [JSONDecodeError]. *)
Theorem request_returns_document :
  forall method endpoint params json_data timeout self w tok self1 w1 dt r rest,
    _get_token_sync self w = (Ok tok, self1, w1) ->
    backend w1 = Responds dt r :: rest ->
    200 <= status_code r <= 299 ->
    status_code r <> 204 ->
    let w2 := after_call w1 dt rest
                (Request method (base_url self1 ++ endpoint)%string
                         params json_data tok timeout) in
    (forall doc, content r = Json doc ->
       request method endpoint params json_data timeout self w =
         (Ok doc, self1, emit (JsonDecode (Json doc)) w2))
    /\
    (forall text, content r = NotJson text ->
       request method endpoint params json_data timeout self w =
         (Raise JSONDecodeError, self1, emit (JsonDecode (NotJson text)) w2)).
Proof.
  intros method endpoint params json_data timeout self w tok self1 w1 dt r rest
         Htok Hb [Hlo Hhi] H204 w2.
  assert (Hrun := request_run method endpoint params json_data timeout
                    _ _ _ _ _ _ _ _ Htok Hb).
  cbv zeta in Hrun. fold w2 in Hrun.
  assert (Hok : is_success r = true).
  { unfold is_success. apply andb_true_intro. split; apply Z.leb_le; assumption. }
  apply Z.eqb_neq in H204. rewrite Hok, H204 in Hrun.
  split.
  - intros doc Hdoc. rewrite Hrun. unfold response_json. rewrite Hdoc. reflexivity.
  - intros text Htext. rewrite Hrun. unfold response_json. rewrite Htext. reflexivity.
Qed.

(** A 200 answer with a JSON document. *)
Lemma request_returns_document_witness :
  let r := mkResponse 200 (Json (VDict [("data", VList [])])) in
  let w := world_at 5000 [Responds 120000 r] in
  let w2 := after_call w 120000 []
              (Request "GET" "https://test.api.amadeus.com/v1/x" None None
                       (VStr "T1") 30) in
  (forall doc, content r = Json doc ->
     request "GET" "/v1/x" None None 30 (signed_in "T1" 9000000) w =
       (Ok doc, signed_in "T1" 9000000, emit (JsonDecode (Json doc)) w2))
  /\
  (forall text, content r = NotJson text ->
     request "GET" "/v1/x" None None 30 (signed_in "T1" 9000000) w =
       (Raise JSONDecodeError, signed_in "T1" 9000000,
        emit (JsonDecode (NotJson text)) w2)).
Proof.
  intros r w w2.
  apply (request_returns_document "GET" "/v1/x" None None 30
           (signed_in "T1" 9000000) w (VStr "T1") (signed_in "T1" 9000000) w
           120000 r []).
  - reflexivity.
  - reflexivity.
  - simpl. lia.
  - simpl. lia.
Defined.

(** X5.  When the business call fails in transport, [request] raises
    [TransportError] after that one attempt: one call is logged, one reply
    of the service is used up, nothing is decoded, and the token obtained
    for the call stays with the client. *)
Theorem transport_failure_not_retried :
  forall method endpoint params json_data timeout self w tok self1 w1 dt rest,
    _get_token_sync self w = (Ok tok, self1, w1) ->
    backend w1 = Unreachable dt :: rest ->
    request method endpoint params json_data timeout self w =
      (Raise TransportError, self1,
       after_call w1 dt rest
         (Request method (base_url self1 ++ endpoint)%string
                  params json_data tok timeout))
    /\ _access_token self1 = tok.
Proof.
  intros method endpoint params json_data timeout self w tok self1 w1 dt rest
         Htok Hb.
  split; [|eapply get_token_returns_slot; eassumption].
  unfold request, bind at 1. rewrite Htok.
  unfold bind, get_self, http_call. rewrite Hb. reflexivity.
Qed.

(** The service times out after thirty seconds; a second reply is scripted
    and stays unused. *)
Lemma transport_failure_not_retried_witness :
  let w := world_at 5000 [Unreachable 30000000; json_reply 200 (VDict [])] in
  request "GET" "/v1/x" None None 30 (signed_in "T1" 90000000) w =
    (Raise TransportError, signed_in "T1" 90000000,
     after_call w 30000000 [json_reply 200 (VDict [])]
       (Request "GET" "https://test.api.amadeus.com/v1/x" None None (VStr "T1") 30))
  /\ _access_token (signed_in "T1" 90000000) = VStr "T1".
Proof.
  intros w.
  apply (transport_failure_not_retried "GET" "/v1/x" None None 30
           (signed_in "T1" 90000000) w (VStr "T1") (signed_in "T1" 90000000) w
           30000000 [json_reply 200 (VDict [])]).
  - reflexivity.
  - reflexivity.
Defined.

(** X6.  [_get_token_sync] stays off the network exactly when the client
    holds a truthy token and the clock reads strictly less than the stored
    expiry; at the expiry itself, and with an empty token, it sends. *)
Theorem token_call_silent_iff_fresh :
  forall self w r self' w',
    _get_token_sync self w = (r, self', w') ->
    (log w' = log w <-> token_is_fresh self (now w) = true) /\
    (forall expiry, _token_expiry self = Some expiry -> expiry <= now w ->
       log w' <> log w) /\
    (py_truthy (_access_token self) = false -> log w' <> log w).
Proof.
  intros self w r self' w' H.
  assert (Hiff : log w' = log w <-> token_is_fresh self (now w) = true).
  { split.
    - intros Hlog. destruct r as [tok|e].
      + destruct (get_token_inv _ _ _ _ _ H) as [(Hfresh & _) | (_ & H')];
          [exact Hfresh|].
        destruct H' as (dt & r & rest & data & v & lifetime
                        & _ & _ & _ & _ & _ & _ & _ & ->).
        cbn [log] in Hlog. exfalso. eapply app_cons_not_self. exact Hlog.
      + destruct (get_token_failure _ _ _ _ _ H)
          as (_ & _ & _ & _ & _ & (decodes & Hlog' & _) & _).
        rewrite Hlog' in Hlog. exfalso. eapply app_cons_not_self. exact Hlog.
    - intros Hfresh. rewrite (get_token_hit _ _ Hfresh) in H.
      inversion H. reflexivity. }
  split; [exact Hiff|]. split.
  - intros expiry Hexp Hle Hlog. apply Hiff in Hlog.
    unfold token_is_fresh in Hlog. rewrite Hexp in Hlog.
    apply andb_true_iff in Hlog. destruct Hlog as [_ Hlt].
    apply Z.ltb_lt in Hlt. lia.
  - intros Hfalsy Hlog. apply Hiff in Hlog.
    unfold token_is_fresh in Hlog. rewrite Hfalsy in Hlog. discriminate.
Qed.

(** A token call made at the very instant of expiry. *)
Lemma token_call_silent_iff_fresh_witness :
  let w := world_at 9000000 [token_reply "T2" 1799] in
  let w' := snd (_get_token_sync (signed_in "T1" 9000000) w) in
  (log w' = log w <-> token_is_fresh (signed_in "T1" 9000000) (now w) = true) /\
  (forall expiry, _token_expiry (signed_in "T1" 9000000) = Some expiry ->
     expiry <= now w -> log w' <> log w) /\
  (py_truthy (_access_token (signed_in "T1" 9000000)) = false -> log w' <> log w).
Proof.
  intros w w'.
  apply (token_call_silent_iff_fresh (signed_in "T1" 9000000) w
           (fst (fst (_get_token_sync (signed_in "T1" 9000000) w)))
           (snd (fst (_get_token_sync (signed_in "T1" 9000000) w)))).
  reflexivity.
Defined.

(** The events of a [request] once the token is at hand: the call, then at
    most the decoding of the reply. *)
Lemma request_events :
  forall method endpoint params json_data timeout self w tok self1 w1,
    _get_token_sync self w = (Ok tok, self1, w1) ->
    exists outcome w2 later,
      request method endpoint params json_data timeout self w = (outcome, self1, w2) /\
      log w2 = log w1 ++ Request method (base_url self1 ++ endpoint)%string
                                 params json_data tok timeout :: later /\
      Forall (fun ev => is_network_call ev = false) later.
Proof.
  intros method endpoint params json_data timeout self w tok self1 w1 Htok.
  destruct (backend w1) as [|[dt r|dt] rest] eqn:Hb.
  - exists (Raise TransportError). eexists. exists [].
    unfold request, bind at 1. rewrite Htok.
    unfold bind, get_self, http_call. rewrite Hb.
    split; [reflexivity|]. split; [reflexivity | constructor].
  - rewrite (request_run _ _ _ _ _ _ _ _ _ _ _ _ _ Htok Hb). cbv zeta.
    destruct (is_success r).
    + destruct (status_code r =? 204).
      * eexists _, _, []. split; [reflexivity|]. split; [reflexivity | constructor].
      * unfold response_json.
        destruct (content r) as [text|doc].
        -- eexists _, _, [JsonDecode (NotJson text)]. split; [reflexivity|].
           unfold emit, after_call. cbn [log]. rewrite <- app_assoc.
           split; [reflexivity | repeat constructor].
        -- eexists _, _, [JsonDecode (Json doc)]. split; [reflexivity|].
           unfold emit, after_call. cbn [log]. rewrite <- app_assoc.
           split; [reflexivity | repeat constructor].
    + eexists _, _, []. split; [reflexivity|]. split; [reflexivity | constructor].
  - exists (Raise TransportError). eexists. exists [].
    unfold request, bind at 1. rewrite Htok.
    unfold bind, get_self, http_call. rewrite Hb.
    split; [reflexivity|]. split; [reflexivity | constructor].
Qed.

Lemma delete_request_events :
  forall endpoint timeout self w tok self1 w1,
    _get_token_sync self w = (Ok tok, self1, w1) ->
    exists outcome w2 later,
      delete_request endpoint timeout self w = (outcome, self1, w2) /\
      log w2 = log w1 ++ Delete (base_url self1 ++ endpoint)%string tok timeout
                         :: later /\
      Forall (fun ev => is_network_call ev = false) later.
Proof.
  intros endpoint timeout self w tok self1 w1 Htok.
  destruct (backend w1) as [|[dt r|dt] rest] eqn:Hb.
  - exists (Raise TransportError). eexists. exists [].
    unfold delete_request, bind at 1. rewrite Htok.
    unfold bind, get_self, http_call. rewrite Hb.
    split; [reflexivity|]. split; [reflexivity | constructor].
  - rewrite (delete_request_run _ _ _ _ _ _ _ _ _ _ Htok Hb). cbv zeta.
    destruct (status_code r =? 204).
    + eexists _, _, []. split; [reflexivity|]. split; [reflexivity | constructor].
    + destruct (is_success r).
      * unfold response_json.
        destruct (content r) as [text|doc].
        -- eexists _, _, [JsonDecode (NotJson text)]. split; [reflexivity|].
           unfold emit, after_call. cbn [log]. rewrite <- app_assoc.
           split; [reflexivity | repeat constructor].
        -- eexists _, _, [JsonDecode (Json doc)]. split; [reflexivity|].
           unfold emit, after_call. cbn [log]. rewrite <- app_assoc.
           split; [reflexivity | repeat constructor].
      * eexists _, _, []. split; [reflexivity|]. split; [reflexivity | constructor].
  - exists (Raise TransportError). eexists. exists [].
    unfold delete_request, bind at 1. rewrite Htok.
    unfold bind, get_self, http_call. rewrite Hb.
    split; [reflexivity|]. split; [reflexivity | constructor].
Qed.

Lemma get_token_keeps_credentials : keeps_credentials _get_token_sync.
Proof.
  intros self w [tok|e] self' w' H.
  - destruct (get_token_inv _ _ _ _ _ H) as [(_ & -> & _) | (_ & H')]; [auto|].
    destruct H' as (dt & r & rest & data & v & lifetime
                    & _ & _ & _ & _ & _ & _ & -> & _).
    auto.
  - destruct (get_token_failure _ _ _ _ _ H) as (_ & Hid & Hsecret & Hurl & _).
    auto.
Qed.

(** X7.  The credentials of a client stay what they were at construction:
    neither the token manager nor [request] nor [delete_request] changes the
    client identifier, the secret or the base URL, whatever the service
    answers. *)
Theorem credentials_never_change :
  keeps_credentials _get_token_sync /\
  (forall method endpoint params json_data timeout,
     keeps_credentials (request method endpoint params json_data timeout)) /\
  (forall endpoint timeout, keeps_credentials (delete_request endpoint timeout)).
Proof.
  split; [exact get_token_keeps_credentials|]. split.
  - intros method endpoint params json_data timeout self w r self' w' H.
    destruct (_get_token_sync self w) as [[[tok|e] self1] w1] eqn:Htok.
    + destruct (request_events method endpoint params json_data timeout
                  _ _ _ _ _ Htok) as (outcome & w2 & later & Hrun & _).
      rewrite Hrun in H. inversion H; subst.
      exact (get_token_keeps_credentials _ _ _ _ _ Htok).
    + unfold request, bind in H. rewrite Htok in H. inversion H; subst.
      exact (get_token_keeps_credentials _ _ _ _ _ Htok).
  - intros endpoint timeout self w r self' w' H.
    destruct (_get_token_sync self w) as [[[tok|e] self1] w1] eqn:Htok.
    + destruct (delete_request_events endpoint timeout _ _ _ _ _ Htok)
        as (outcome & w2 & later & Hrun & _).
      rewrite Hrun in H. inversion H; subst.
      exact (get_token_keeps_credentials _ _ _ _ _ Htok).
    + unfold delete_request, bind in H. rewrite Htok in H. inversion H; subst.
      exact (get_token_keeps_credentials _ _ _ _ _ Htok).
Qed.

(** X8.  Constructing a client never fails and sends nothing; an argument
    that is missing or the empty string gives way to the configured value,
    any other argument is taken; the first token call of a new client always
    goes to the network, to the token path under the client's base URL and
    with the client's credentials. *)
Theorem new_client_first_use :
  (forall setting, or_setting None setting = setting) /\
  (forall setting, or_setting (Some "") setting = setting) /\
  (forall arg setting, arg <> "" -> or_setting (Some arg) setting = arg) /\
  (forall settings client_id_arg client_secret_arg base_url_arg w,
     exists outcome self' w' later,
       _get_token_sync
         (new_client settings client_id_arg client_secret_arg base_url_arg) w
       = (outcome, self', w') /\
       log w' =
         log w ++
         TokenPost (or_setting base_url_arg (settings_base_url settings)
                    ++ "/v1/security/oauth2/token")%string
                   (or_setting client_id_arg (settings_client_id settings))
                   (or_setting client_secret_arg (settings_client_secret settings))
         :: later).
Proof.
  split; [reflexivity|]. split; [reflexivity|]. split.
  - intros arg setting Hne. unfold or_setting.
    destruct (String.eqb_spec arg ""); [contradiction | reflexivity].
  - intros settings client_id_arg client_secret_arg base_url_arg w.
    set (self := new_client settings client_id_arg client_secret_arg base_url_arg).
    destruct (_get_token_sync self w) as [[[tok|e] self'] w'] eqn:H.
    + destruct (get_token_inv _ _ _ _ _ H) as [(Hfresh & _) | (_ & H')];
        [discriminate|].
      destruct H' as (dt & r & rest & data & v & lifetime
                      & _ & _ & _ & _ & _ & _ & _ & ->).
      eexists _, _, _, _. split; [reflexivity|]. reflexivity.
    + destruct (get_token_failure _ _ _ _ _ H)
        as (_ & _ & _ & _ & _ & (decodes & Hlog & _) & _).
      eexists _, _, _, decodes. split; [reflexivity|]. exact Hlog.
Qed.

(** A request against a service that answers 500 keeps the credentials. *)
Lemma credentials_never_change_witness :
  client_id (snd (fst (request "GET" "/v1/x" None None 30 test_client
                         (world_at 5000 [token_reply "T1" 1799; text_reply 500 "oops"]))))
  = client_id test_client /\
  client_secret (snd (fst (request "GET" "/v1/x" None None 30 test_client
                         (world_at 5000 [token_reply "T1" 1799; text_reply 500 "oops"]))))
  = client_secret test_client /\
  base_url (snd (fst (request "GET" "/v1/x" None None 30 test_client
                         (world_at 5000 [token_reply "T1" 1799; text_reply 500 "oops"]))))
  = base_url test_client.
Proof.
  apply (proj1 (proj2 credentials_never_change) "GET" "/v1/x" None None 30
           test_client
           (world_at 5000 [token_reply "T1" 1799; text_reply 500 "oops"])
           (fst (fst (request "GET" "/v1/x" None None 30 test_client
                        (world_at 5000 [token_reply "T1" 1799; text_reply 500 "oops"]))))
           _
           (snd (request "GET" "/v1/x" None None 30 test_client
                   (world_at 5000 [token_reply "T1" 1799; text_reply 500 "oops"])))).
  reflexivity.
Defined.

(** An explicit base URL next to the default settings. *)
Lemma new_client_first_use_witness :
  or_setting (Some "https://api.amadeus.com") (settings_base_url default_settings)
  = "https://api.amadeus.com".
Proof.
  apply (proj1 (proj2 (proj2 new_client_first_use))). discriminate.
Defined.

(** * Further properties: the tool layer *)






(** * Further properties of the operations *)

Lemma mapM_res_Forall2 :
  forall (A B : Type) (f : A -> result B) (l : list A) (l' : list B),
    mapM_res f l = Ok l' -> Forall2 (fun x y => f x = Ok y) l l'.
Proof.
  intros A B f l. induction l as [|x rest IH]; intros l' H; simpl in H.
  - inversion H. constructor.
  - destruct (f x) as [y|] eqn:Hy; [|discriminate]. simpl in H.
    destruct (mapM_res f rest) as [ys|]; [|discriminate]. simpl in H.
    inversion H. constructor; [exact Hy | apply IH; reflexivity].
Qed.

(** One item that fails makes the whole loop fail. *)
Lemma mapM_res_fails :
  forall (A B : Type) (f : A -> result B) (l : list A),
    Exists (fun x => exists e, f x = Raise e) l ->
    exists e, mapM_res f l = Raise e.
Proof.
  intros A B f l H. induction H as [x rest [e He] | x rest _ [e IH]]; simpl.
  - rewrite He. exists e. reflexivity.
  - destruct (f x) as [y|e']; [|exists e'; reflexivity].
    simpl. rewrite IH. exists e. reflexivity.
Qed.

(** X10.  [get_recommended_destinations] answers with the cities it was
    asked about, spelled as the caller gave them, and at most 15
    recommendations, whatever the service sent. *)
Theorem recommended_destinations_shape :
  forall origin_cities traveler_interest self w v self' w',
    get_recommended_destinations origin_cities traveler_interest self w
    = (Ok v, self', w') ->
    exists destinations,
      v = VDict [("based_on", VStr origin_cities);
                 ("recommendations", VList destinations)] /\
      (List.length destinations <= 15)%nat.
Proof.
  intros origin_cities traveler_interest self w v self' w' H.
  unfold get_recommended_destinations, bind in H.
  destruct (request _ _ _ _ _ self w) as [[[data|e] self1] w1]; [|discriminate].
  unfold lift in H. inversion H as [[Hv Hs Hw]]. clear H.
  destruct (py_get data "data" (VList [])) as [all|]; [|discriminate].
  cbn [rbind] in Hv.
  destruct (py_slice_to 15 all) as [first|] eqn:Hslice; [|discriminate].
  cbn [rbind] in Hv.
  destruct (py_iter first) as [items|] eqn:Hiter; [|discriminate].
  cbn [rbind] in Hv.
  destruct (mapM_res shape_destination items) as [result|] eqn:Hmap; [|discriminate].
  cbn [rbind] in Hv. inversion Hv; subst.
  exists result. split; [reflexivity|].
  rewrite (mapM_res_length _ _ _ _ _ Hmap).
  apply (sliced_items_bound 15 all first items); [lia | assumption | assumption].
Qed.

(** Twenty suggestions come back for "par"; fifteen are passed on. *)
Lemma recommended_destinations_shape_witness :
  exists destinations,
    fst (fst (get_recommended_destinations "par" "ADVENTURE"
                (signed_in "T1" 9000000)
                (world_at 5000
                   [json_reply 200
                      (VDict [("data", VList (repeat (VDict [("name", VStr "Nice")]) 20))])])))
    = Ok (VDict [("based_on", VStr "par"); ("recommendations", VList destinations)]) /\
    (List.length destinations <= 15)%nat.
Proof.
  destruct (recommended_destinations_shape "par" "ADVENTURE"
              (signed_in "T1" 9000000)
              (world_at 5000
                 [json_reply 200
                    (VDict [("data", VList (repeat (VDict [("name", VStr "Nice")]) 20))])])
              _ _ _ eq_refl) as (destinations & Hv & Hlen).
  exists destinations. split; [|exact Hlen].
  simpl. f_equal. exact Hv.
Defined.

(** X11.  A response without [data] and a response whose [data] is null are
    not the same thing to [get_parsed_trip] and [parse_trip_document]: the
    first gives a result with empty fields, the second raises
    [AttributeError]. *)
Theorem missing_data_differs_from_null :
  (forall document_id self w fields self' w',
     request "GET" ("/v3/travel/trip-parser/pnr-documents/" ++ document_id)%string
             None None default_timeout self w = (Ok (VDict fields), self', w') ->
     (assoc "data" fields = None ->
      get_parsed_trip document_id self w =
        (Ok (VDict [("document_id", VNone); ("status", VNone); ("trips", VList [])]),
         self', w'))
     /\
     (assoc "data" fields = Some VNone ->
      get_parsed_trip document_id self w = (Raise AttributeError, self', w')))
  /\
  (forall document_content document_type self w fields self' w',
     request "POST" "/v3/travel/trip-parser/pnr-documents" None
             (Some (VDict [("data", VDict [("type", VStr "trip-parser-job");
                                           ("content", VStr document_content)])]))
             default_timeout self w = (Ok (VDict fields), self', w') ->
     (assoc "data" fields = None ->
      parse_trip_document document_content document_type self w =
        (Ok (VDict [("job_id", VNone); ("status", VNone); ("trips", VList [])]),
         self', w'))
     /\
     (assoc "data" fields = Some VNone ->
      parse_trip_document document_content document_type self w =
        (Raise AttributeError, self', w'))).
Proof.
  split.
  - intros document_id self w fields self' w' Hreq.
    split; intros Hdata; unfold get_parsed_trip, bind, lift; rewrite Hreq;
      cbn [py_get rbind]; rewrite Hdata; reflexivity.
  - intros document_content document_type self w fields self' w' Hreq.
    split; intros Hdata; unfold parse_trip_document, bind, lift; rewrite Hreq;
      cbn [py_get rbind]; rewrite Hdata; reflexivity.
Qed.

(** The service answers [{"data": null}]. *)
Lemma missing_data_differs_from_null_witness :
  get_parsed_trip "D1" (signed_in "T1" 9000000)
    (world_at 5000 [json_reply 200 (VDict [("data", VNone)])]) =
  (Raise AttributeError, signed_in "T1" 9000000,
   emit (JsonDecode (Json (VDict [("data", VNone)])))
     (after_call (world_at 5000 [json_reply 200 (VDict [("data", VNone)])]) 120000 []
        (Request "GET"
                 "https://test.api.amadeus.com/v3/travel/trip-parser/pnr-documents/D1"
                 None None (VStr "T1") 30))).
Proof.
  apply (proj2 (proj1 missing_data_differs_from_null "D1" (signed_in "T1" 9000000)
                  (world_at 5000 [json_reply 200 (VDict [("data", VNone)])])
                  [("data", VNone)] _ _ eq_refl)).
  reflexivity.
Defined.

(** X12.  [get_hotel_details] reports "Hotel not found" when the payload has
    no hotel, with or without a [data] list, and otherwise describes the
    first hotel of the list, whatever follows it. *)
Theorem hotel_details_first_or_not_found :
  forall hotel_id self w fields self' w',
    request "GET" "/v3/shopping/hotel-offers"
            (Some (VDict [("hotelIds", VStr hotel_id)])) None default_timeout self w
    = (Ok (VDict fields), self', w') ->
    (assoc "data" fields = None \/ assoc "data" fields = Some (VList []) ->
     get_hotel_details hotel_id self w =
       (Ok (VDict [("message", VStr "Hotel not found")]), self', w'))
    /\
    (forall first others,
       assoc "data" fields = Some (VList (first :: others)) ->
       get_hotel_details hotel_id self w = (shape_hotel_details first, self', w')).
Proof.
  intros hotel_id self w fields self' w' Hreq. split.
  - intros Hdata. unfold get_hotel_details, bind, lift. rewrite Hreq.
    cbn [py_get rbind]. destruct Hdata as [-> | ->]; reflexivity.
  - intros first others Hdata. unfold get_hotel_details, bind, lift. rewrite Hreq.
    cbn [py_get rbind]. rewrite Hdata. reflexivity.
Qed.

(** The service knows no such hotel. *)
Lemma hotel_details_first_or_not_found_witness :
  get_hotel_details "H404" (signed_in "T1" 9000000)
    (world_at 5000 [json_reply 200 (VDict [("data", VList [])])]) =
  (Ok (VDict [("message", VStr "Hotel not found")]), signed_in "T1" 9000000,
   emit (JsonDecode (Json (VDict [("data", VList [])])))
     (after_call (world_at 5000 [json_reply 200 (VDict [("data", VList [])])]) 120000 []
        (Request "GET" "https://test.api.amadeus.com/v3/shopping/hotel-offers"
                 (Some (VDict [("hotelIds", VStr "H404")])) None (VStr "T1") 30))).
Proof.
  apply (proj1 (hotel_details_first_or_not_found "H404" (signed_in "T1" 9000000)
                  (world_at 5000 [json_reply 200 (VDict [("data", VList [])])])
                  [("data", VList [])] _ _ eq_refl)).
  right. reflexivity.
Defined.

(** X13.  [book_hotel] never fails on a response that has no booking: with
    [data] missing, null or an empty list it returns a result whose three
    fields are [None]; with a list of bookings it reports the first one. *)
Theorem book_hotel_without_booking :
  forall offer_id guests payment self w fields self' w',
    request "POST" "/v1/booking/hotel-bookings" None
            (Some (VDict [("data", VDict [("offerId", VStr offer_id);
                                          ("guests", guests);
                                          ("payments", VList [payment])])]))
            default_timeout self w = (Ok (VDict fields), self', w') ->
    (assoc "data" fields = None \/ assoc "data" fields = Some VNone
     \/ assoc "data" fields = Some (VList []) ->
     book_hotel offer_id guests payment self w =
       (Ok (VDict [("booking_id", VNone); ("provider_confirmation", VNone);
                   ("status", VNone)]), self', w'))
    /\
    (forall booking others,
       assoc "data" fields = Some (VList (VDict booking :: others)) ->
       book_hotel offer_id guests payment self w =
         (Ok (VDict [("booking_id",
                      match assoc "id" booking with Some v => v | None => VNone end);
                     ("provider_confirmation",
                      match assoc "providerConfirmationId" booking with
                      | Some v => v
                      | None => VNone
                      end);
                     ("status",
                      match assoc "bookingStatus" booking with
                      | Some v => v
                      | None => VNone
                      end)]), self', w')).
Proof.
  intros offer_id guests payment self w fields self' w' Hreq. split.
  - intros Hdata. unfold book_hotel, bind, lift. rewrite Hreq.
    unfold dget. cbn [py_get rbind].
    destruct Hdata as [-> | [-> | ->]]; reflexivity.
  - intros booking others Hdata. unfold book_hotel, bind, lift. rewrite Hreq.
    unfold dget. cbn [py_get rbind]. rewrite Hdata. reflexivity.
Qed.

(** The booking endpoint answers with an empty list. *)
Lemma book_hotel_without_booking_witness :
  fst (fst (book_hotel "O1" (VList []) (VDict []) (signed_in "T1" 9000000)
              (world_at 5000 [json_reply 200 (VDict [("data", VList [])])]))) =
  Ok (VDict [("booking_id", VNone); ("provider_confirmation", VNone);
             ("status", VNone)]).
Proof.
  rewrite (proj1 (book_hotel_without_booking "O1" (VList []) (VDict [])
                    (signed_in "T1" 9000000)
                    (world_at 5000 [json_reply 200 (VDict [("data", VList [])])])
                    [("data", VList [])] _ _ eq_refl)).
  - reflexivity.
  - right. right. reflexivity.
Defined.

(** The seven scores of a rating entry. *)
Lemma sentiment_scores_keys :
  forall hotel scores,
    mapM_res (fun k => (all <~ py_get hotel "sentimentScores" (VDict []) ;;
                        score <~ dget all k ;;
                        Ok (k, score))%res)
             sentiment_keys = Ok scores ->
    map fst scores = sentiment_keys.
Proof.
  intros hotel scores H.
  apply mapM_res_Forall2 in H.
  assert (Hfst : Forall2 (fun k p => fst p = k) sentiment_keys scores).
  { eapply Forall2_impl; [|exact H].
    intros k p Hp. simpl in Hp.
    destruct (py_get hotel "sentimentScores" (VDict [])) as [all|]; [|discriminate].
    cbn [rbind] in Hp.
    destruct (dget all k) as [score|]; [|discriminate].
    cbn [rbind] in Hp. inversion Hp. reflexivity. }
  clear H. induction Hfst as [|k p ks ps Hk _ IH]; [reflexivity|].
  simpl. rewrite Hk, IH. reflexivity.
Qed.

(** X14.  Every entry [get_hotel_ratings] returns has the same four fields,
    and its [sentiment_scores] holds exactly the seven scores location,
    comfort, service, staff, internet, food and facilities, in that order,
    whichever of them the service sent. *)
Theorem hotel_ratings_have_seven_scores :
  forall hotel_ids self w v self' w',
    get_hotel_ratings hotel_ids self w = (Ok v, self', w') ->
    exists entries,
      v = VList entries /\
      Forall (fun entry =>
                exists hotel_id overall reviews scores,
                  entry = VDict [("hotel_id", hotel_id); ("overall_rating", overall);
                                 ("number_of_reviews", reviews);
                                 ("sentiment_scores", VDict scores)] /\
                  map fst scores = sentiment_keys)
             entries.
Proof.
  intros hotel_ids self w v self' w' H.
  unfold get_hotel_ratings, bind in H.
  destruct (request _ _ _ _ _ self w) as [[[data|e] self1] w1]; [|discriminate].
  unfold lift in H. inversion H as [[Hv Hs Hw]]. clear H.
  destruct (py_get data "data" (VList [])) as [hotels|]; [|discriminate].
  cbn [rbind] in Hv.
  destruct (py_iter hotels) as [items|]; [|discriminate].
  cbn [rbind] in Hv.
  destruct (mapM_res shape_hotel_rating items) as [entries|] eqn:Hmap; [|discriminate].
  cbn [rbind] in Hv. inversion Hv; subst.
  exists entries. split; [reflexivity|]. clear Hv.
  apply mapM_res_Forall2 in Hmap.
  induction Hmap as [|hotel entry hotels' entries' Hshape _ IH]; [constructor|].
  constructor; [|exact IH].
  unfold shape_hotel_rating in Hshape.
  destruct (dget hotel "hotelId") as [hotel_id|]; [|discriminate].
  cbn [rbind] in Hshape.
  destruct (dget hotel "overallRating") as [overall|]; [|discriminate].
  cbn [rbind] in Hshape.
  destruct (dget hotel "numberOfReviews") as [reviews|]; [|discriminate].
  cbn [rbind] in Hshape.
  destruct (mapM_res _ sentiment_keys) as [scores|] eqn:Hscores; [|discriminate].
  cbn [rbind] in Hshape. inversion Hshape; subst.
  exists hotel_id, overall, reviews, scores.
  split; [reflexivity|]. eapply sentiment_scores_keys. exact Hscores.
Qed.

(** A hotel for which the service sent two of the seven scores. *)
Lemma hotel_ratings_have_seven_scores_witness :
  exists entries,
    fst (fst (get_hotel_ratings "H1" (signed_in "T1" 9000000)
                (world_at 5000
                   [json_reply 200
                      (VDict [("data",
                         VList [VDict [("hotelId", VStr "H1");
                                       ("sentimentScores",
                                        VDict [("staff", VInt 90);
                                               ("food", VInt 70)])]])])])))
    = Ok (VList entries) /\
    Forall (fun entry =>
              exists hotel_id overall reviews scores,
                entry = VDict [("hotel_id", hotel_id); ("overall_rating", overall);
                               ("number_of_reviews", reviews);
                               ("sentiment_scores", VDict scores)] /\
                map fst scores = sentiment_keys)
           entries.
Proof.
  destruct (hotel_ratings_have_seven_scores "H1" (signed_in "T1" 9000000)
              (world_at 5000
                 [json_reply 200
                    (VDict [("data",
                       VList [VDict [("hotelId", VStr "H1");
                                     ("sentimentScores",
                                      VDict [("staff", VInt 90);
                                             ("food", VInt 70)])]])])])
              _ _ _ eq_refl) as (entries & Hv & Hall).
  exists entries. split; [|exact Hall]. simpl. f_equal. exact Hv.
Defined.

Lemma py_join_needs_strings :
  forall sep items,
    Exists (fun v => forall s, v <> VStr s) items ->
    py_join sep items = Raise TypeError.
Proof.
  intros sep items H. induction H as [v rest Hv | v rest H IH].
  - destruct v; try (destruct rest; reflexivity).
    exfalso. eapply Hv. reflexivity.
  - destruct v; try (destruct rest; reflexivity).
    destruct rest as [|v' rest']; [inversion H|].
    change (py_join sep (VStr s :: v' :: rest'))
      with (rbind (py_join sep (v' :: rest'))
                  (fun tail => Ok (s ++ sep ++ tail)%string)).
    rewrite IH. reflexivity.
Qed.

(** X15.  When one of the hotels the first request returned has no string
    [hotelId], [search_hotels] raises [TypeError] while joining the
    identifiers and stops there: the offers request is not made. *)
Theorem hotel_without_id_stops_search :
  forall (F : PyFloat) city_code check_in check_out adults rooms radius max_results
         self w hotels_data self1 w1 ids,
    request "GET" "/v1/reference-data/locations/hotels/by-city"
            (Some (VDict [("cityCode", VStr (upper city_code));
                          ("radius", VInt radius);
                          ("radiusUnit", VStr "KM")]))
            None default_timeout self w = (Ok hotels_data, self1, w1) ->
    hotel_ids_of hotels_data max_results = Ok ids ->
    Exists (fun v => forall s, v <> VStr s) ids ->
    search_hotels city_code check_in check_out adults rooms radius max_results self w
    = (Raise TypeError, self1, w1).
Proof.
  intros F city_code check_in check_out adults rooms radius max_results
         self w hotels_data self1 w1 ids Hfirst Hids Hbad.
  unfold search_hotels, bind at 1. rewrite Hfirst.
  unfold bind at 1, lift at 1. rewrite Hids.
  destruct ids as [|first_id more_ids]; [inversion Hbad|].
  unfold bind, lift. rewrite (py_join_needs_strings _ _ Hbad). reflexivity.
Qed.

(** The second hotel of the city list has no identifier. *)
Lemma hotel_without_id_stops_search_witness :
  let w := world_at 5000
             [json_reply 200
                (VDict [("data", VList [VDict [("hotelId", VStr "H1")];
                                        VDict [("name", VStr "Nameless")]])]);
              two_hotels_reply] in
  exists self1 w1,
    search_hotels (F := DecimalFloat) "nyc" "2025-06-01" "2025-06-05" 1 1 5 10
                  (signed_in "T1" 9000000) w
    = (Raise TypeError, self1, w1) /\
    backend w1 = [two_hotels_reply].
Proof.
  intros w. eexists _, _. split.
  - apply (hotel_without_id_stops_search DecimalFloat
             "nyc" "2025-06-01" "2025-06-05" 1 1 5 10 (signed_in "T1" 9000000) w
             (VDict [("data", VList [VDict [("hotelId", VStr "H1")];
                                     VDict [("name", VStr "Nameless")]])])
             _ _ [VStr "H1"; VNone]).
    + reflexivity.
    + reflexivity.
    + apply Exists_cons_tl. apply Exists_cons_hd. discriminate.
  - reflexivity.
Defined.



(** ** The cheapest offer among equals *)

Section FirstMinimum.
Context {F : PyFloat} {O : PyFloatOrder F}.
Variable key : value -> result pyfloat.

Lemma float_lt_le_trans :
  forall a b c, float_lt a b = true -> float_lt c b = false -> float_lt a c = true.
Proof.
  intros a b c Hab Hbc. destruct (float_lt a c) eqn:Hac; [reflexivity|].
  assert (H := float_lt_negtrans b c a Hbc Hac). congruence.
Qed.

Lemma float_lt_trans :
  forall a b c, float_lt a b = true -> float_lt b c = true -> float_lt a c = true.
Proof.
  intros a b c Hab Hbc. apply (float_lt_le_trans a b c Hab).
  apply float_lt_asym. exact Hbc.
Qed.

(** Either the running best stays, no later key being below its key, or the
    loop settles on a later item whose key is below the running best's and
    below the keys of all items passed on the way. *)
Lemma min_loop_first :
  forall rest best kbest c,
    min_loop key best kbest rest = Ok c ->
    (c = best /\
     Forall (fun x => exists kx, key x = Ok kx /\ float_lt kx kbest = false) rest)
    \/
    (exists passed after kc,
       rest = passed ++ c :: after /\
       key c = Ok kc /\
       float_lt kc kbest = true /\
       Forall (fun x => exists kx, key x = Ok kx /\ float_lt kc kx = true) passed /\
       Forall (fun x => exists kx, key x = Ok kx /\ float_lt kx kc = false) after).
Proof.
  induction rest as [|y rest IH]; intros best kbest c Hloop; simpl in Hloop.
  - inversion Hloop. left. split; [reflexivity | constructor].
  - destruct (key y) as [ky|] eqn:Hky; [|discriminate]. simpl in Hloop.
    destruct (float_lt ky kbest) eqn:Hlt.
    + right. destruct (IH y ky c Hloop) as [[-> Hall] | H].
      * exists [], rest, ky. repeat split; auto.
      * destruct H as (passed & after & kc & -> & Hkc & Hbelow & Hpassed & Hafter).
        exists (y :: passed), after, kc. repeat split; auto.
        -- eapply float_lt_trans; eassumption.
        -- constructor; [|exact Hpassed]. exists ky. split; assumption.
    + destruct (IH best kbest c Hloop) as [[-> Hall] | H].
      * left. split; [reflexivity|].
        constructor; [|exact Hall]. exists ky. split; assumption.
      * right.
        destruct H as (passed & after & kc & -> & Hkc & Hbelow & Hpassed & Hafter).
        exists (y :: passed), after, kc. repeat split; auto.
        constructor; [|exact Hpassed]. exists ky. split; [exact Hky|].
        eapply float_lt_le_trans; eassumption.
Qed.

End FirstMinimum.

(** X17.  Of the offers of a hotel, [search_hotels] takes the first one with
    the lowest price: every offer before the chosen one is strictly dearer,
    none after it is cheaper. *)
Theorem cheapest_is_first_minimum :
  forall (F : PyFloat) (O : PyFloatOrder F) offers cheapest,
    py_min offer_price_key offers = Ok cheapest ->
    exists before after price,
      offers = before ++ cheapest :: after /\
      offer_price_key cheapest = Ok price /\
      Forall (fun o => exists p, offer_price_key o = Ok p /\ float_lt price p = true)
             before /\
      Forall (fun o => exists p, offer_price_key o = Ok p /\ float_lt p price = false)
             after.
Proof.
  intros F O [|x rest] c H; cbn [py_min] in H; [discriminate|].
  destruct (offer_price_key x) as [kx|] eqn:Hkx; [|discriminate].
  cbn [rbind] in H.
  destruct (min_loop_first offer_price_key rest x kx c H) as [[-> Hall] | H'].
  - exists [], rest, kx. repeat split; auto.
  - destruct H' as (passed & after & kc & -> & Hkc & Hbelow & Hpassed & Hafter).
    exists (x :: passed), after, kc. repeat split; auto.
    constructor; [|exact Hpassed]. exists kx. split; assumption.
Qed.

(** Three offers priced 180, 150 and 150: the second is taken. *)
Lemma cheapest_is_first_minimum_witness :
  let offers := [priced "O1" "180" "STANDARD"; priced "O2" "150" "STANDARD";
                 priced "O3" "150.0" "DELUXE"] in
  exists before after price,
    offers = before ++ priced "O2" "150" "STANDARD" :: after /\
    offer_price_key (F := DecimalFloat) (priced "O2" "150" "STANDARD") = Ok price /\
    Forall (fun o => exists p, offer_price_key (F := DecimalFloat) o = Ok p /\
                               float_lt price p = true) before /\
    Forall (fun o => exists p, offer_price_key (F := DecimalFloat) o = Ok p /\
                               float_lt p price = false) after.
Proof.
  intros offers.
  apply (cheapest_is_first_minimum DecimalFloat DecimalFloat_order offers
           (priced "O2" "150" "STANDARD")).
  reflexivity.
Defined.

(** X18.  [search_flights] builds no partial result: when one of the offers
    of the payload is not an object, the operation raises, whatever the
    other offers are. *)
Theorem flight_search_all_or_nothing :
  forall origin destination departure_date return_date adults travel_class
         nonstop max_results self w fields offers self' w',
    request "GET" "/v2/shopping/flight-offers"
            (Some (flight_search_params origin destination departure_date
                     return_date adults travel_class nonstop max_results))
            None default_timeout self w = (Ok (VDict fields), self', w') ->
    assoc "data" fields = Some (VList offers) ->
    Exists (fun o => is_dict o = false) offers ->
    exists e,
      search_flights origin destination departure_date return_date adults
                     travel_class nonstop max_results self w = (Raise e, self', w').
Proof.
  intros origin destination departure_date return_date adults travel_class
         nonstop max_results self w fields offers self' w' Hreq Hdata Hbad.
  assert (Hfail : exists e, mapM_res shape_flight_offer offers = Raise e).
  { apply mapM_res_fails. eapply Exists_impl; [|exact Hbad].
    intros o Ho. exists AttributeError.
    destruct o; try discriminate; reflexivity. }
  destruct Hfail as [e He]. exists e.
  unfold search_flights, bind, lift. rewrite Hreq.
  cbn [py_get rbind]. rewrite Hdata. cbn [py_iter rbind]. rewrite He. reflexivity.
Qed.

(** A good offer followed by a null. *)
Lemma flight_search_all_or_nothing_witness :
  exists e,
    search_flights "jfk" "lax" "2025-06-01" None 1 "ECONOMY" false 10
      (signed_in "T1" 9000000)
      (world_at 5000
         [json_reply 200 (VDict [("data", VList [VDict [("id", VStr "1")]; VNone])])])
    = (Raise e, signed_in "T1" 9000000,
       emit (JsonDecode
               (Json (VDict [("data", VList [VDict [("id", VStr "1")]; VNone])])))
         (after_call
            (world_at 5000
               [json_reply 200
                  (VDict [("data", VList [VDict [("id", VStr "1")]; VNone])])])
            120000 []
            (Request "GET" "https://test.api.amadeus.com/v2/shopping/flight-offers"
                     (Some (flight_search_params "jfk" "lax" "2025-06-01" None 1
                              "ECONOMY" false 10))
                     None (VStr "T1") 30))).
Proof.
  apply (flight_search_all_or_nothing "jfk" "lax" "2025-06-01" None 1 "ECONOMY"
           false 10 (signed_in "T1" 9000000)
           (world_at 5000
              [json_reply 200
                 (VDict [("data", VList [VDict [("id", VStr "1")]; VNone])])])
           [("data", VList [VDict [("id", VStr "1")]; VNone])]
           [VDict [("id", VStr "1")]; VNone]).
  - reflexivity.
  - reflexivity.
  - apply Exists_cons_tl. apply Exists_cons_hd. reflexivity.
Defined.

(** X19.  [get_flight_price] never fails for want of an offer: when the
    priced offers are missing, null or an empty list, it returns no price
    and an empty breakdown. *)
Theorem flight_price_without_offers :
  forall flight_offer self w fields result self' w',
    request "POST" "/v1/shopping/flight-offers/pricing" None
            (Some (VDict [("data", VDict [("type", VStr "flight-offers-pricing");
                                          ("flightOffers", VList [flight_offer])])]))
            default_timeout self w = (Ok (VDict fields), self', w') ->
    (assoc "data" fields = None /\ result = [])
    \/ assoc "data" fields = Some (VDict result) ->
    assoc "flightOffers" result = None
    \/ assoc "flightOffers" result = Some VNone
    \/ assoc "flightOffers" result = Some (VList []) ->
    get_flight_price flight_offer self w =
      (Ok (VDict [("total_price", VNone); ("price_breakdown", VList [])]), self', w').
Proof.
  intros flight_offer self w fields result self' w' Hreq Hdata Hoffers.
  unfold get_flight_price, bind, lift. rewrite Hreq.
  cbn [py_get rbind].
  assert (Hresult : match assoc "data" fields with
                    | Some v => v
                    | None => VDict []
                    end = VDict result).
  { destruct Hdata as [[-> ->] | ->]; reflexivity. }
  rewrite Hresult. cbn [py_get rbind].
  destruct Hoffers as [-> | [-> | ->]]; reflexivity.
Qed.

(** The pricing endpoint answers with an empty offer list. *)
Lemma flight_price_without_offers_witness :
  fst (fst (get_flight_price (VDict [("id", VStr "1")]) (signed_in "T1" 9000000)
              (world_at 5000
                 [json_reply 200
                    (VDict [("data", VDict [("flightOffers", VList [])])])]))) =
  Ok (VDict [("total_price", VNone); ("price_breakdown", VList [])]).
Proof.
  rewrite (flight_price_without_offers (VDict [("id", VStr "1")])
             (signed_in "T1" 9000000)
             (world_at 5000
                [json_reply 200
                   (VDict [("data", VDict [("flightOffers", VList [])])])])
             [("data", VDict [("flightOffers", VList [])])]
             [("flightOffers", VList [])] _ _ eq_refl).
  - reflexivity.
  - right. reflexivity.
  - right. right. reflexivity.
Defined.

(** X20.  For a flight with a single flight point, [get_flight_status]
    reports that point as the departure and leaves the three arrival fields
    empty; the arrival is read from the last point only when there are at
    least two. *)
Theorem flight_status_single_point :
  forall label flight point,
    assoc "flightPoints" flight = Some (VList [VDict point]) ->
    dict_or_absent point "departure" = true ->
    dict_or_absent flight "flightDesignator" = true ->
    exists terminal scheduled aircraft,
      shape_flight_status label (VDict flight) =
        Ok (VDict [("flight", VStr label);
                   ("departure",
                    VDict [("airport",
                            match assoc "iataCode" point with
                            | Some v => v
                            | None => VNone
                            end);
                           ("terminal", terminal); ("scheduled", scheduled)]);
                   ("arrival", VDict [("airport", VNone); ("terminal", VNone);
                                      ("scheduled", VNone)]);
                   ("aircraft", aircraft);
                   ("duration",
                    match assoc "duration" flight with
                    | Some v => v
                    | None => VNone
                    end)]).
Proof.
  intros label flight point Hpoints Hdep Hdes.
  unfold shape_flight_status, dget. cbn [py_get rbind]. rewrite Hpoints.
  cbn [first_of last_if_several List.length Z.of_nat Z.ltb Z.compare rbind py_get].
  unfold dict_or_absent in Hdep, Hdes.
  destruct (assoc "departure" point) as [[| | | | |dep]|]; try discriminate;
    cbn [py_get rbind assoc];
    (destruct (assoc "flightDesignator" flight) as [[| | | | |des]|];
     try discriminate; cbn [py_get rbind]; eexists _, _, _; reflexivity).
Qed.

(** A flight for which only the departure point is known. *)
Lemma flight_status_single_point_witness :
  exists terminal scheduled aircraft,
    shape_flight_status "AA123"
      (VDict [("flightPoints",
               VList [VDict [("iataCode", VStr "JFK");
                             ("departure", VDict [("at", VStr "2025-06-01T08:00")])]]);
              ("duration", VStr "PT6H")]) =
      Ok (VDict [("flight", VStr "AA123");
                 ("departure",
                  VDict [("airport", VStr "JFK");
                         ("terminal", terminal); ("scheduled", scheduled)]);
                 ("arrival", VDict [("airport", VNone); ("terminal", VNone);
                                    ("scheduled", VNone)]);
                 ("aircraft", aircraft);
                 ("duration", VStr "PT6H")]).
Proof.
  apply (flight_status_single_point "AA123"
           [("flightPoints",
             VList [VDict [("iataCode", VStr "JFK");
                           ("departure", VDict [("at", VStr "2025-06-01T08:00")])]]);
            ("duration", VStr "PT6H")]
           [("iataCode", VStr "JFK");
            ("departure", VDict [("at", VStr "2025-06-01T08:00")])]).
  - reflexivity.
  - reflexivity.
  - reflexivity.
Defined.

(** X21.  [cancel_flight_order] and [cancel_transfer] say "cancelled
    successfully", naming the order, when the deletion is answered with 204;
    when it is answered with another 2xx status and a JSON object whose
    [status] is not "success", they say "Cancellation processed" and hand
    back that object; an error status raises. *)
Theorem cancellation_outcomes :
  forall order_id self w tok self1 w1 dt r rest,
    _get_token_sync self w = (Ok tok, self1, w1) ->
    backend w1 = Responds dt r :: rest ->
    (status_code r = 204 ->
     fst (fst (cancel_flight_order order_id self w)) =
       Ok (VDict [("message",
                   VStr ("Order " ++ order_id ++ " cancelled successfully")%string)])
     /\
     fst (fst (cancel_transfer order_id self w)) =
       Ok (VDict [("message",
                   VStr ("Transfer " ++ order_id ++ " cancelled successfully")%string)]))
    /\
    (forall fields,
       200 <= status_code r <= 299 -> status_code r <> 204 ->
       content r = Json (VDict fields) ->
       (forall status, assoc "status" fields = Some status ->
                       py_eq_str status "success" = false) ->
       fst (fst (cancel_flight_order order_id self w)) =
         Ok (VDict [("message", VStr "Cancellation processed");
                    ("response", VDict fields)])
       /\
       fst (fst (cancel_transfer order_id self w)) =
         Ok (VDict [("message", VStr "Cancellation processed");
                    ("response", VDict fields)]))
    /\
    (status_code r < 200 \/ 299 < status_code r ->
     fst (fst (cancel_flight_order order_id self w)) = Raise (HTTPStatusError r)
     /\
     fst (fst (cancel_transfer order_id self w)) = Raise (HTTPStatusError r)).
Proof.
  intros order_id self w tok self1 w1 dt r rest Htok Hb.
  assert (Hflight := delete_request_run
                       ("/v1/booking/flight-orders/" ++ order_id)%string
                       default_timeout _ _ _ _ _ _ _ _ Htok Hb).
  assert (Htransfer := delete_request_run
                         ("/v1/booking/transfer-orders/" ++ order_id)%string
                         default_timeout _ _ _ _ _ _ _ _ Htok Hb).
  cbv zeta in Hflight, Htransfer.
  unfold cancel_flight_order, cancel_transfer.
  split; [|split].
  - intros H204. apply Z.eqb_eq in H204.
    split; unfold bind at 1; [rewrite Hflight | rewrite Htransfer];
      rewrite H204; reflexivity.
  - intros fields [Hlo Hhi] H204 Hdoc Hstatus.
    apply Z.eqb_neq in H204.
    assert (Hok : is_success r = true).
    { unfold is_success. apply andb_true_intro. split; apply Z.leb_le; assumption. }
    split; unfold bind at 1; [rewrite Hflight | rewrite Htransfer];
      rewrite H204, Hok; unfold response_json; rewrite Hdoc;
      unfold bind, lift, dget; cbn [py_get];
      (destruct (assoc "status" fields) as [status|] eqn:Hs;
       [rewrite (Hstatus status eq_refl)|]; reflexivity).
  - intros Hst.
    assert (H204 : (status_code r =? 204) = false) by (apply Z.eqb_neq; lia).
    assert (Hfail : is_success r = false).
    { unfold is_success. apply andb_false_iff.
      destruct Hst; [left | right]; apply Z.leb_gt; lia. }
    split; unfold bind at 1; [rewrite Hflight | rewrite Htransfer];
      rewrite H204, Hfail; reflexivity.
Qed.

(** The order is deleted and the service answers 204. *)
Lemma cancellation_outcomes_witness :
  fst (fst (cancel_flight_order "X1" (signed_in "T1" 9000000)
              (world_at 5000 [text_reply 204 ""]))) =
    Ok (VDict [("message", VStr "Order X1 cancelled successfully")])
  /\
  fst (fst (cancel_transfer "X1" (signed_in "T1" 9000000)
              (world_at 5000 [text_reply 204 ""]))) =
    Ok (VDict [("message", VStr "Transfer X1 cancelled successfully")]).
Proof.
  apply (proj1 (cancellation_outcomes "X1" (signed_in "T1" 9000000)
                  (world_at 5000 [text_reply 204 ""]) (VStr "T1")
                  (signed_in "T1" 9000000) (world_at 5000 [text_reply 204 ""])
                  120000 (mkResponse 204 (NotJson "")) [] eq_refl eq_refl)).
  reflexivity.
Defined.

(** X22.  [get_travel_recommendations] swallows failures of the request
    only: when one of the first 15 items of the payload is not an object the
    operation raises [AttributeError]; what comes after the 15th item is
    never looked at. *)
Theorem recommendations_payload_errors_propagate :
  forall str_of_exn city_code category self w fields pois self' w',
    request "GET" "/v1/reference-data/locations/pois"
            (Some (VDict [("cityCode", VStr (upper city_code));
                          ("category", VStr category)]))
            None default_timeout self w = (Ok (VDict fields), self', w') ->
    assoc "data" fields = Some (VList pois) ->
    (Exists (fun poi => is_dict poi = false) (firstn 15 pois) ->
     get_travel_recommendations str_of_exn city_code category self w =
       (Raise AttributeError, self', w'))
    /\
    (forallb is_dict (firstn 15 pois) = true ->
     exists result,
       get_travel_recommendations str_of_exn city_code category self w =
         (Ok (VList result), self', w') /\
       List.length result = Nat.min 15 (List.length pois)).
Proof.
  intros str_of_exn city_code category self w fields pois self' w' Hreq Hdata.
  unfold get_travel_recommendations, bind, attempt, lift. rewrite Hreq.
  cbn [py_get rbind]. rewrite Hdata.
  cbn [py_slice_to rbind py_iter].
  change (slice_to 15 pois) with (firstn 15 pois).
  split.
  - intros Hbad.
    assert (Hfail : mapM_res shape_poi (firstn 15 pois) = Raise AttributeError).
    { induction Hbad as [poi rest Hpoi | poi rest _ IH]; simpl.
      - destruct poi; try discriminate; reflexivity.
      - destruct poi; try reflexivity.
        unfold shape_poi at 1, dget. cbn [py_get rbind]. rewrite IH. reflexivity. }
    rewrite Hfail. reflexivity.
  - intros Hgood.
    destruct (mapM_res_all_ok shape_poi is_dict _ shape_poi_total Hgood)
      as [result Hres].
    exists result. rewrite Hres. split; [reflexivity|].
    rewrite (mapM_res_length _ _ _ _ _ Hres). apply length_firstn.
Qed.

(** Sixteen items, the last of them null: fifteen entries come back. *)
Lemma recommendations_payload_errors_propagate_witness :
  let pois := repeat (VDict [("name", VStr "Louvre")]) 15 ++ [VNone] in
  exists result,
    get_travel_recommendations (fun _ => "unused") "par" "SIGHTS"
      (signed_in "T1" 9000000)
      (world_at 5000 [json_reply 200 (VDict [("data", VList pois)])]) =
      (Ok (VList result), signed_in "T1" 9000000,
       emit (JsonDecode (Json (VDict [("data", VList pois)])))
         (after_call (world_at 5000 [json_reply 200 (VDict [("data", VList pois)])])
            120000 []
            (Request "GET" "https://test.api.amadeus.com/v1/reference-data/locations/pois"
                     (Some (VDict [("cityCode", VStr "PAR"); ("category", VStr "SIGHTS")]))
                     None (VStr "T1") 30))) /\
    List.length result = Nat.min 15 (List.length pois).
Proof.
  intros pois.
  apply (proj2 (recommendations_payload_errors_propagate (fun _ => "unused")
                  "par" "SIGHTS" (signed_in "T1" 9000000)
                  (world_at 5000 [json_reply 200 (VDict [("data", VList pois)])])
                  [("data", VList pois)] pois _ _ eq_refl eq_refl)).
  reflexivity.
Defined.

(** X23.  [search_hotel_by_name] passes [max_results] on to the service and
    does not cut the list itself: it returns one entry for every item of
    the payload, however many there are. *)
Theorem hotel_name_search_not_truncated :
  forall keyword max_results self w fields hotels self' w' v,
    request "GET" "/v1/reference-data/locations/hotel"
            (Some (VDict [("keyword", VStr keyword);
                          ("subType", VStr "HOTEL_LEISURE");
                          ("max", VInt max_results)]))
            None default_timeout self w = (Ok (VDict fields), self', w') ->
    assoc "data" fields = Some (VList hotels) ->
    search_hotel_by_name keyword max_results self w = (Ok v, self', w') ->
    exists result, v = VList result /\ List.length result = List.length hotels.
Proof.
  intros keyword max_results self w fields hotels self' w' v Hreq Hdata H.
  unfold search_hotel_by_name, bind, lift in H. rewrite Hreq in H.
  cbn [py_get rbind] in H. rewrite Hdata in H. cbn [py_iter rbind] in H.
  destruct (mapM_res shape_hotel_match hotels) as [result|] eqn:Hmap;
    [|discriminate].
  cbn [rbind] in H. inversion H; subst.
  exists result. split; [reflexivity|].
  eapply mapM_res_length. exact Hmap.
Qed.

(** Three matches come back for a search limited to two. *)
Lemma hotel_name_search_not_truncated_witness :
  let hotels := repeat (VDict [("hotelId", VStr "H1"); ("name", VStr "Ritz")]) 3 in
  let w := world_at 5000 [json_reply 200 (VDict [("data", VList hotels)])] in
  exists result,
    fst (fst (search_hotel_by_name "ritz" 2 (signed_in "T1" 9000000) w))
    = Ok (VList result) /\
    List.length result = List.length hotels.
Proof.
  intros hotels w.
  destruct (hotel_name_search_not_truncated "ritz" 2 (signed_in "T1" 9000000) w
              [("data", VList hotels)] hotels _ _ _ eq_refl eq_refl eq_refl)
    as (result & Hv & Hlen).
  exists result. split; [|exact Hlen]. simpl. f_equal. exact Hv.
Defined.
